(** * CarbonSense front-end: route distance, prediction and search state

    A shallow embedding of [src/frontend/src/App.jsx].

    JavaScript numbers are modelled by the real numbers they denote
    (IEEE-754 rounding, [NaN] and signed zeros are not modelled); a decimal
    string produced by [toFixed] or read by [parseFloat] is modelled by its
    numeric value.  React state slots ([useState]) become fields of
    records, and every handler becomes a function on those records; an
    [async] handler is split at its [await] into the part that runs at the
    call and the part that runs when the awaited request settles, the
    outcome of the request being an explicit argument. *)

From Stdlib Require Import Reals Lra Lia ZArith List String Bool Arith.
From Stdlib Require Import Machin Sorted Ascii.
Import ListNotations.

Local Open Scope R_scope.

(** ** Numbers: [Math.atan2] and [Number.prototype.toFixed] *)

Module JsMath.

(** [Math.atan2(y, x)] on real arguments (the four-quadrant arctangent). *)
Definition atan2 (y x : R) : R :=
  if Rlt_dec 0 x then atan (y / x)
  else if Rlt_dec x 0 then
    (if Rle_dec 0 y then atan (y / x) + PI else atan (y / x) - PI)
  else
    (if Rlt_dec 0 y then PI / 2
     else if Rlt_dec y 0 then - (PI / 2) else 0).

(** The integer [n] for which [n / 10^f - x] is as close to zero as
    possible, the larger one when there are two (ECMAScript, step 10.a of
    [Number.prototype.toFixed]); [x] is non-negative there. *)
Definition nearest_scaled (f : nat) (x : R) : Z :=
  Zfloor (x * 10 ^ f + / 2).

(** [x.toFixed(f)], as the number its decimal string denotes: the sign is
    split off first, then the magnitude is rounded to [f] decimals
    (magnitudes of [10^21] and more, which [toFixed] prints unrounded, do
    not occur as distances). *)
Definition toFixed (f : nat) (x : R) : R :=
  if Rlt_dec x 0
  then - (IZR (nearest_scaled f (- x)) / 10 ^ f)
  else IZR (nearest_scaled f x) / 10 ^ f.

End JsMath.

(** ** Form state *)

Inductive Domain : Type := transport | energy.

(** [formData]: the [useState] object of the form.  A coordinate is
    [null] ([None]) or a number. *)
Record FormData : Type := mkFormData {
  distance_km : R;
  kwh : R;
  hour : Z;
  day_of_week : Z;
  is_weekend : Z;
  location : string;
  vehicle_type : string;
  start_lat : option R;
  start_lon : option R;
  end_lat : option R;
  end_lon : option R;
  start_location_name : string;
  end_location_name : string
}.

Definition initialFormData : FormData :=
  {| distance_km := 5; kwh := 2; hour := 12; day_of_week := 3;
     is_weekend := 0; location := "UK"; vehicle_type := "petrol_car";
     start_lat := None; start_lon := None; end_lat := None; end_lon := None;
     start_location_name := ""; end_location_name := "" |}.

(** The object spreads [{...prev, field: v}] of the source. *)
Definition with_distance_km (v : R) (p : FormData) : FormData :=
  {| distance_km := v; kwh := kwh p; hour := hour p;
     day_of_week := day_of_week p; is_weekend := is_weekend p;
     location := location p; vehicle_type := vehicle_type p;
     start_lat := start_lat p; start_lon := start_lon p;
     end_lat := end_lat p; end_lon := end_lon p;
     start_location_name := start_location_name p;
     end_location_name := end_location_name p |}.

Definition with_start_coords (lat lon : option R) (p : FormData) : FormData :=
  {| distance_km := distance_km p; kwh := kwh p; hour := hour p;
     day_of_week := day_of_week p; is_weekend := is_weekend p;
     location := location p; vehicle_type := vehicle_type p;
     start_lat := lat; start_lon := lon;
     end_lat := end_lat p; end_lon := end_lon p;
     start_location_name := start_location_name p;
     end_location_name := end_location_name p |}.

Definition with_end_coords (lat lon : option R) (p : FormData) : FormData :=
  {| distance_km := distance_km p; kwh := kwh p; hour := hour p;
     day_of_week := day_of_week p; is_weekend := is_weekend p;
     location := location p; vehicle_type := vehicle_type p;
     start_lat := start_lat p; start_lon := start_lon p;
     end_lat := lat; end_lon := lon;
     start_location_name := start_location_name p;
     end_location_name := end_location_name p |}.

Definition with_start_location_name (n : string) (p : FormData) : FormData :=
  {| distance_km := distance_km p; kwh := kwh p; hour := hour p;
     day_of_week := day_of_week p; is_weekend := is_weekend p;
     location := location p; vehicle_type := vehicle_type p;
     start_lat := start_lat p; start_lon := start_lon p;
     end_lat := end_lat p; end_lon := end_lon p;
     start_location_name := n;
     end_location_name := end_location_name p |}.

Definition with_end_location_name (n : string) (p : FormData) : FormData :=
  {| distance_km := distance_km p; kwh := kwh p; hour := hour p;
     day_of_week := day_of_week p; is_weekend := is_weekend p;
     location := location p; vehicle_type := vehicle_type p;
     start_lat := start_lat p; start_lon := start_lon p;
     end_lat := end_lat p; end_lon := end_lon p;
     start_location_name := start_location_name p;
     end_location_name := n |}.

(** ** [calculateDistance] *)

Module Haversine.
Import JsMath.

(** The local constants of [calculateDistance], in source order.  The
    numbers of the source are taken as real numbers: the rounding of its
    floating-point arithmetic is not modelled.  In particular the source
    can compute a term [a] one rounding step above [1] for two points that
    are almost antipodal, where its [Math.sqrt(1 - a)] is [NaN]; the
    properties below that need [a] in [[0, 1]] take it as a hypothesis. *)
Definition R_earth : R := 6371.

Definition dLat (lat1 lat2 : R) : R := (lat2 - lat1) * PI / 180.

Definition dLon (lon1 lon2 : R) : R := (lon2 - lon1) * PI / 180.

(** [a]: in real numbers it lies in [[0, 1]] for latitudes in
    [[-90, 90]]; the floating-point [a] of the source need not. *)
Definition a (lat1 lon1 lat2 lon2 : R) : R :=
  sin (dLat lat1 lat2 / 2) * sin (dLat lat1 lat2 / 2) +
  cos (lat1 * PI / 180) * cos (lat2 * PI / 180) *
  sin (dLon lon1 lon2 / 2) * sin (dLon lon1 lon2 / 2).

(** [c]: [sqrt] of a negative number is [0] here and [NaN] in the source,
    so [c] stands for the source's value only where [0 <= a <= 1]. *)
Definition c (lat1 lon1 lat2 lon2 : R) : R :=
  2 * atan2 (sqrt (a lat1 lon1 lat2 lon2)) (sqrt (1 - a lat1 lon1 lat2 lon2)).

Definition distance (lat1 lon1 lat2 lon2 : R) : R :=
  R_earth * c lat1 lon1 lat2 lon2.

(** [calculateDistance] returns nothing: it queues the updater
    [prev => ({...prev, distance_km: distance.toFixed(2)})] on the form
    state.  The model is that updater. *)
Definition calculateDistance (lat1 lon1 lat2 lon2 : R) (prev : FormData)
  : FormData :=
  with_distance_km (toFixed 2 (distance lat1 lon1 lat2 lon2)) prev.

(** Valid coordinates of the data model. *)
Definition valid_lat (lat : R) : Prop := -90 <= lat <= 90.
Definition valid_lon (lon : R) : Prop := -180 <= lon <= 180.

End Haversine.

(** The haversine formula in the words of the specification, kept apart
    from the transcription of the source above so that the two can be
    compared. *)
Module HaversineSpec.

Definition radians (deg : R) : R := deg * (PI / 180).

Definition hav_a (lat1 lon1 lat2 lon2 : R) : R :=
  Rsqr (sin (radians (lat2 - lat1) / 2)) +
  cos (radians lat1) * cos (radians lat2) *
  Rsqr (sin (radians (lon2 - lon1) / 2)).

Definition central_angle (lat1 lon1 lat2 lon2 : R) : R :=
  2 * JsMath.atan2 (sqrt (hav_a lat1 lon1 lat2 lon2))
                   (sqrt (1 - hav_a lat1 lon1 lat2 lon2)).

Definition great_circle_km (lat1 lon1 lat2 lon2 : R) : R :=
  6371 * central_angle lat1 lon1 lat2 lon2.

(** The angular separation of two points of the sphere, by the spherical
    law of cosines: the angle between their position vectors. *)
Definition angular_separation (lat1 lon1 lat2 lon2 : R) : R :=
  acos (sin (radians lat1) * sin (radians lat2) +
        cos (radians lat1) * cos (radians lat2) * cos (radians (lon2 - lon1))).

End HaversineSpec.

(** ** Application state *)

Module Nominatim.

(** An entry of the forward-geocoding answer; [lat] and [lon] are the
    numbers [parseFloat] reads from its decimal strings. *)
Record Suggestion : Type := mkSuggestion {
  lat : R;
  lon : R;
  display_name : string
}.

(** The reverse-geocoding answer. *)
Record Place : Type := mkPlace { place_display_name : string }.

End Nominatim.

Inductive LocType : Type := at_start | at_end.

Record LocationSearch : Type := mkLocationSearch {
  ls_start : string;
  ls_end : string;
  startSuggestions : list Nominatim.Suggestion;
  endSuggestions : list Nominatim.Suggestion;
  searchingStart : bool;
  searchingEnd : bool
}.

Record ModelPrediction : Type := mkModelPrediction {
  mean : option R;
  std : option R;
  ci_lower : option R;
  ci_upper : option R
}.

(** The JSON answer of [/predict].  [predictions] is the object the
    interface requires; the optional context objects are shown verbatim
    and kept as text. *)
Record PredictData : Type := mkPredictData {
  pd_predictions : list (string * ModelPrediction);
  pd_context : string
}.

Record HistoryEntry : Type := mkHistoryEntry {
  timestamp : string;
  h_domain : Domain;
  input : R;
  bayesian : R
}.

Record App : Type := mkApp {
  domain : Domain;
  formData : FormData;
  locationSearch : LocationSearch;
  showMap : bool;
  mapMode : option LocType;
  predictions : option PredictData;
  optimization : option string;
  loading : bool;
  loadingOptimization : bool;
  error : option string;
  history : list HistoryEntry
}.

Definition initialLocationSearch : LocationSearch :=
  {| ls_start := ""; ls_end := ""; startSuggestions := []; endSuggestions := [];
     searchingStart := false; searchingEnd := false |}.

Definition initialApp : App :=
  {| domain := transport; formData := initialFormData;
     locationSearch := initialLocationSearch;
     showMap := false; mapMode := None;
     predictions := None; optimization := None;
     loading := false; loadingOptimization := false;
     error := None; history := [] |}.

(** The state setters.  [setX f] is React's [setX(prev => f prev)]; a
    direct [setX(v)] is [setX (fun _ => v)]. *)
Definition setDomain (f : Domain -> Domain) (s : App) : App :=
  mkApp (f (domain s)) (formData s) (locationSearch s) (showMap s) (mapMode s)
        (predictions s) (optimization s) (loading s) (loadingOptimization s)
        (error s) (history s).

Definition setFormData (f : FormData -> FormData) (s : App) : App :=
  mkApp (domain s) (f (formData s)) (locationSearch s) (showMap s) (mapMode s)
        (predictions s) (optimization s) (loading s) (loadingOptimization s)
        (error s) (history s).

Definition setLocationSearch (f : LocationSearch -> LocationSearch) (s : App)
  : App :=
  mkApp (domain s) (formData s) (f (locationSearch s)) (showMap s) (mapMode s)
        (predictions s) (optimization s) (loading s) (loadingOptimization s)
        (error s) (history s).

Definition setShowMap (f : bool -> bool) (s : App) : App :=
  mkApp (domain s) (formData s) (locationSearch s) (f (showMap s)) (mapMode s)
        (predictions s) (optimization s) (loading s) (loadingOptimization s)
        (error s) (history s).

Definition setMapMode (f : option LocType -> option LocType) (s : App) : App :=
  mkApp (domain s) (formData s) (locationSearch s) (showMap s) (f (mapMode s))
        (predictions s) (optimization s) (loading s) (loadingOptimization s)
        (error s) (history s).

Definition setPredictions (f : option PredictData -> option PredictData)
  (s : App) : App :=
  mkApp (domain s) (formData s) (locationSearch s) (showMap s) (mapMode s)
        (f (predictions s)) (optimization s) (loading s)
        (loadingOptimization s) (error s) (history s).

Definition setOptimization (f : option string -> option string) (s : App)
  : App :=
  mkApp (domain s) (formData s) (locationSearch s) (showMap s) (mapMode s)
        (predictions s) (f (optimization s)) (loading s)
        (loadingOptimization s) (error s) (history s).

Definition setLoading (f : bool -> bool) (s : App) : App :=
  mkApp (domain s) (formData s) (locationSearch s) (showMap s) (mapMode s)
        (predictions s) (optimization s) (f (loading s))
        (loadingOptimization s) (error s) (history s).

Definition setLoadingOptimization (f : bool -> bool) (s : App) : App :=
  mkApp (domain s) (formData s) (locationSearch s) (showMap s) (mapMode s)
        (predictions s) (optimization s) (loading s)
        (f (loadingOptimization s)) (error s) (history s).

Definition setError (f : option string -> option string) (s : App) : App :=
  mkApp (domain s) (formData s) (locationSearch s) (showMap s) (mapMode s)
        (predictions s) (optimization s) (loading s) (loadingOptimization s)
        (f (error s)) (history s).

Definition setHistory (f : list HistoryEntry -> list HistoryEntry) (s : App)
  : App :=
  mkApp (domain s) (formData s) (locationSearch s) (showMap s) (mapMode s)
        (predictions s) (optimization s) (loading s) (loadingOptimization s)
        (error s) (f (history s)).

(** Spreads of [locationSearch]. *)
Definition with_text (type : LocType) (v : string) (p : LocationSearch)
  : LocationSearch :=
  match type with
  | at_start => mkLocationSearch v (ls_end p) (startSuggestions p)
                  (endSuggestions p) (searchingStart p) (searchingEnd p)
  | at_end => mkLocationSearch (ls_start p) v (startSuggestions p)
                (endSuggestions p) (searchingStart p) (searchingEnd p)
  end.

(** [{...prev, [type === 'start' ? 'startSuggestions' : 'endSuggestions']: v}] *)
Definition with_suggestions (type : LocType) (v : list Nominatim.Suggestion)
  (p : LocationSearch) : LocationSearch :=
  match type with
  | at_start => mkLocationSearch (ls_start p) (ls_end p) v (endSuggestions p)
                  (searchingStart p) (searchingEnd p)
  | at_end => mkLocationSearch (ls_start p) (ls_end p) (startSuggestions p) v
                (searchingStart p) (searchingEnd p)
  end.

(** [{...prev, [type === 'start' ? 'searchingStart' : 'searchingEnd']: v}] *)
Definition with_searching (type : LocType) (v : bool) (p : LocationSearch)
  : LocationSearch :=
  match type with
  | at_start => mkLocationSearch (ls_start p) (ls_end p) (startSuggestions p)
                  (endSuggestions p) v (searchingEnd p)
  | at_end => mkLocationSearch (ls_start p) (ls_end p) (startSuggestions p)
                (endSuggestions p) (searchingStart p) v
  end.

Definition suggestions (type : LocType) (p : LocationSearch)
  : list Nominatim.Suggestion :=
  match type with at_start => startSuggestions p | at_end => endSuggestions p end.

(** ** JavaScript coercions used by the handlers *)

(** Truthiness of a coordinate slot: [null] and [0] are falsy. *)
Definition truthy (x : option R) : bool :=
  match x with
  | None => false
  | Some v => if Req_dec_T v 0 then false else true
  end.

(** [ToNumber]: [null] counts as [0] in arithmetic. *)
Definition toNumber (x : option R) : R :=
  match x with Some v => v | None => 0 end.

(** [x || 0] on an optional number. *)
Definition orZero (x : option R) : R :=
  match x with Some v => v | None => 0 end.

(** [arr.slice(-n)]: the last [n] elements, all of them when there are
    fewer. *)
Definition slice_last {A : Type} (n : nat) (l : list A) : list A :=
  skipn (List.length l - n) l.

(** ** Requests and the [try]/[catch]/[finally] of the handlers *)

(** How a [fetch] followed by [response.json()] settles. *)
Inductive Body (A : Type) : Type :=
| BodyError (message : string)
| BodyJson (data : A).

Inductive FetchResult (A : Type) : Type :=
| FetchRejected (message : string)
| FetchResponse (ok : bool) (body : Body A).

Arguments BodyError {A} message.
Arguments BodyJson {A} data.
Arguments FetchRejected {A} message.
Arguments FetchResponse {A} ok body.

(** The request failed: network error or non-success HTTP status. *)
Definition fetch_failed {A : Type} (r : FetchResult A) : bool :=
  match r with
  | FetchRejected _ => true
  | FetchResponse ok _ => negb ok
  end.

(** A block of handler code: it updates the state and either completes
    with a value or throws an [Error] with a message. *)
Inductive Completion (A : Type) : Type :=
| Normal (v : A)
| Throw (message : string).

Arguments Normal {A} v.
Arguments Throw {A} message.

Definition Block (A : Type) : Type := App -> App * Completion A.

Definition ret {A : Type} (v : A) : Block A := fun s => (s, Normal v).

Definition throw {A : Type} (message : string) : Block A :=
  fun s => (s, Throw message).

Definition bind {A B : Type} (m : Block A) (k : A -> Block B) : Block B :=
  fun s =>
    match m s with
    | (s1, Normal v) => k v s1
    | (s1, Throw message) => (s1, Throw message)
    end.

Definition update (f : App -> App) : Block unit := fun s => (f s, Normal tt).

Declare Scope block_scope.
Delimit Scope block_scope with block.
Notation "x <- m ;; k" := (bind m (fun x => k))
  (at level 61, m at next level, right associativity) : block_scope.
Notation "m ;; k" := (bind m (fun _ => k))
  (at level 61, right associativity) : block_scope.

(** [try { body } catch (err) { handler err.message } finally { final }],
    run for its effect on the state. *)
Definition try_catch_finally (body : Block unit) (handler : string -> App -> App)
  (final : App -> App) (s : App) : App :=
  match body s with
  | (s1, Normal _) => final s1
  | (s1, Throw message) => final (handler message s1)
  end.

(** [await fetch(...)]: a rejected promise throws at the [await]. *)
Definition await_fetch {A : Type} (r : FetchResult A) : Block (bool * Body A) :=
  match r with
  | FetchRejected message => throw message
  | FetchResponse ok body => ret (ok, body)
  end.

(** [await response.json()] *)
Definition await_json {A : Type} (body : Body A) : Block A :=
  match body with
  | BodyError message => throw message
  | BodyJson data => ret data
  end.

(** ** The handlers of [App] *)

Local Open Scope block_scope.
Local Open Scope string_scope.

(** [obj[key]] on a JSON object given as its list of members. *)
Fixpoint member {A : Type} (key : string) (obj : list (string * A)) : option A :=
  match obj with
  | [] => None
  | (k, v) :: rest => if String.eqb k key then Some v else member key rest
  end.

(** [data.predictions.bayesian?.mean || 0] *)
Definition bayesian_mean (data : PredictData) : R :=
  match member "bayesian" (pd_predictions data) with
  | Some p => orZero (mean p)
  | None => 0%R
  end.

(** *** [handlePredict]

    The statements before the [try] run at the call. *)
Definition handlePredict_call (s : App) : App :=
  setError (fun _ => None) (setLoading (fun _ => true) s).

(** The rest runs when the request settles.  [domain0] and [formData0]
    are the [domain] and [formData] of the render the handler was created
    in; [now] is what [new Date().toLocaleTimeString()] gives. *)
Definition handlePredict_settle (domain0 : Domain) (formData0 : FormData)
  (now : string) (r : FetchResult PredictData) : App -> App :=
  try_catch_finally
    (response <- await_fetch r ;;
     (if negb (fst response) then throw "Prediction failed" else ret tt) ;;
     data <- await_json (snd response) ;;
     update (setPredictions (fun _ => Some data)) ;;
     update (setHistory (fun prev =>
       slice_last 10
         (prev ++ [ {| timestamp := now;
                       h_domain := domain0;
                       input := match domain0 with
                                | transport => distance_km formData0
                                | energy => kwh formData0
                                end;
                       bayesian := bayesian_mean data |} ]))))
    (fun message => setError (fun _ => Some message))
    (setLoading (fun _ => false)).

(** A whole call with nothing else happening before the request settles. *)
Definition handlePredict (now : string) (r : FetchResult PredictData) (s : App)
  : App :=
  handlePredict_settle (domain s) (formData s) now r (handlePredict_call s).

(** *** [handleOptimize] *)
Definition handleOptimize_call (s : App) : App :=
  setLoadingOptimization (fun _ => true) s.

Definition handleOptimize_settle (r : FetchResult string) : App -> App :=
  try_catch_finally
    (response <- await_fetch r ;;
     (if negb (fst response) then throw "Optimization failed" else ret tt) ;;
     data <- await_json (snd response) ;;
     update (setOptimization (fun _ => Some data)))
    (fun message => setError (fun _ => Some message))
    (setLoadingOptimization (fun _ => false)).

(** *** [searchLocation]

    The synchronous part; the flag tells whether a geocoding request was
    sent. *)
Definition searchLocation_call (query : string) (type : LocType) (s : App)
  : App * bool :=
  if (String.length query <? 3)%nat
  then (setLocationSearch (with_suggestions type []) s, false)
  else (setLocationSearch (with_searching type true) s, true).

Definition searchLocation_settle (type : LocType)
  (r : FetchResult (list Nominatim.Suggestion)) : App -> App :=
  try_catch_finally
    (response <- await_fetch r ;;
     if fst response
     then data <- await_json (snd response) ;;
          update (setLocationSearch (fun prev =>
            with_searching type false (with_suggestions type data prev)))
     else ret tt)
    (fun _ => setLocationSearch (with_searching type false))
    (fun s => s).

Definition searchLocation (query : string) (type : LocType)
  (r : FetchResult (list Nominatim.Suggestion)) (s : App) : App :=
  match searchLocation_call query type s with
  | (s1, true) => searchLocation_settle type r s1
  | (s1, false) => s1
  end.

(** *** [handleLocationSelect] *)
Definition handleLocationSelect (location : Nominatim.Suggestion)
  (type : LocType) (s : App) : App :=
  let lat := Nominatim.lat location in
  let lon := Nominatim.lon location in
  let name := Nominatim.display_name location in
  let formData0 := formData s in
  let s1 :=
    match type with
    | at_start =>
        setLocationSearch
          (fun prev => with_suggestions at_start [] (with_text at_start name prev))
          (setFormData
             (fun prev => with_start_location_name name
                            (with_start_coords (Some lat) (Some lon) prev)) s)
    | at_end =>
        setLocationSearch
          (fun prev => with_suggestions at_end [] (with_text at_end name prev))
          (setFormData
             (fun prev => with_end_location_name name
                            (with_end_coords (Some lat) (Some lon) prev)) s)
    end in
  match type with
  | at_start =>
      if truthy (end_lat formData0) && truthy (end_lon formData0)
      then setFormData (Haversine.calculateDistance lat lon
                          (toNumber (end_lat formData0))
                          (toNumber (end_lon formData0))) s1
      else s1
  | at_end =>
      if truthy (start_lat formData0) && truthy (start_lon formData0)
      then setFormData (Haversine.calculateDistance
                          (toNumber (start_lat formData0))
                          (toNumber (start_lon formData0)) lat lon) s1
      else s1
  end.

(** *** [clearLocation] *)
Definition clearLocation (type : LocType) (s : App) : App :=
  match type with
  | at_start =>
      setLocationSearch
        (fun prev => with_suggestions at_start [] (with_text at_start "" prev))
        (setFormData
           (fun prev => with_start_location_name ""
                          (with_start_coords None None prev)) s)
  | at_end =>
      setLocationSearch
        (fun prev => with_suggestions at_end [] (with_text at_end "" prev))
        (setFormData
           (fun prev => with_end_location_name ""
                          (with_end_coords None None prev)) s)
  end.

(** *** [setStartMarker] and [setEndMarker]

    The part before the reverse-geocoding [await] (the Leaflet marker
    itself is outside the state). *)
Definition setStartMarker_call (lat lng : R) (s : App) : App :=
  setFormData (with_start_coords (Some lat) (Some lng)) s.

Definition setEndMarker_call (lat lng : R) (s : App) : App :=
  setFormData (with_end_coords (Some lat) (Some lng)) s.

(** The part after it; [formData0] is the [formData] of the closure. *)
Definition setStartMarker_settle (formData0 : FormData) (lat lng : R)
  (r : FetchResult Nominatim.Place) (s : App) : App :=
  let s1 :=
    try_catch_finally
      (response <- await_fetch r ;;
       if fst response
       then data <- await_json (snd response) ;;
            update (setFormData
                      (with_start_location_name (Nominatim.place_display_name data))) ;;
            update (setLocationSearch
                      (with_text at_start (Nominatim.place_display_name data)))
       else ret tt)
      (fun _ s' => s')
      (fun s' => s') s in
  if truthy (end_lat formData0) && truthy (end_lon formData0)
  then setFormData (Haversine.calculateDistance lat lng
                      (toNumber (end_lat formData0))
                      (toNumber (end_lon formData0))) s1
  else s1.

Definition setEndMarker_settle (formData0 : FormData) (lat lng : R)
  (r : FetchResult Nominatim.Place) (s : App) : App :=
  let s1 :=
    try_catch_finally
      (response <- await_fetch r ;;
       if fst response
       then data <- await_json (snd response) ;;
            update (setFormData
                      (with_end_location_name (Nominatim.place_display_name data))) ;;
            update (setLocationSearch
                      (with_text at_end (Nominatim.place_display_name data)))
       else ret tt)
      (fun _ s' => s')
      (fun s' => s') s in
  if truthy (start_lat formData0) && truthy (start_lon formData0)
  then setFormData (Haversine.calculateDistance
                      (toNumber (start_lat formData0))
                      (toNumber (start_lon formData0)) lat lng) s1
  else s1.

(** A placement from a handler of the current render, with nothing else
    happening before the reverse lookup settles. *)
Definition setStartMarker (lat lng : R) (r : FetchResult Nominatim.Place)
  (s : App) : App :=
  setStartMarker_settle (formData s) lat lng r (setStartMarker_call lat lng s).

Definition setEndMarker (lat lng : R) (r : FetchResult Nominatim.Place)
  (s : App) : App :=
  setEndMarker_settle (formData s) lat lng r (setEndMarker_call lat lng s).

(** *** [openMapForLocation] *)
Definition openMapForLocation (type : LocType) (s : App) : App :=
  setShowMap (fun _ => true) (setMapMode (fun _ => Some type) s).

(** *** What is rendered

    [{formData.start_lat && formData.end_lat &&
      (<div>...{formData.distance_km} km</div>)}]:
    the distance card, with the number it shows. *)
Definition displayed_distance (s : App) : option R :=
  if truthy (start_lat (formData s)) && truthy (end_lat (formData s))
  then Some (distance_km (formData s))
  else None.

(** [{error && (<p>{error}</p>)}] *)
Definition displayed_error (s : App) : option string :=
  match error s with
  | Some message => if String.eqb message "" then None else Some message
  | None => None
  end.

(** ** Runs of the application *)

(** What can happen to the state: a handler is called, or a request of an
    earlier call settles (with the closure values of that call). *)
Inductive Event : Type :=
| PredictCalled
| PredictSettled (domain0 : Domain) (formData0 : FormData) (now : string)
    (r : FetchResult PredictData)
| OptimizeCalled
| OptimizeSettled (r : FetchResult string)
| SearchCalled (query : string) (type : LocType)
| SearchSettled (type : LocType) (r : FetchResult (list Nominatim.Suggestion))
| SearchTyped (type : LocType) (value : string)
| LocationSelected (location : Nominatim.Suggestion) (type : LocType)
| LocationCleared (type : LocType)
| StartMarkerCalled (lat lng : R)
| StartMarkerSettled (formData0 : FormData) (lat lng : R)
    (r : FetchResult Nominatim.Place)
| EndMarkerCalled (lat lng : R)
| EndMarkerSettled (formData0 : FormData) (lat lng : R)
    (r : FetchResult Nominatim.Place)
| MapOpened (type : LocType)
| MapClosed
| MapModeSet (mode : option LocType)
| DomainSet (d : Domain)
| FormEdited (edit : FormData -> FormData).

Definition step (e : Event) (s : App) : App :=
  match e with
  | PredictCalled => handlePredict_call s
  | PredictSettled domain0 formData0 now r =>
      handlePredict_settle domain0 formData0 now r s
  | OptimizeCalled => handleOptimize_call s
  | OptimizeSettled r => handleOptimize_settle r s
  | SearchCalled query type => fst (searchLocation_call query type s)
  | SearchSettled type r => searchLocation_settle type r s
  | SearchTyped type value => setLocationSearch (with_text type value) s
  | LocationSelected location type => handleLocationSelect location type s
  | LocationCleared type => clearLocation type s
  | StartMarkerCalled lat lng => setStartMarker_call lat lng s
  | StartMarkerSettled formData0 lat lng r =>
      setStartMarker_settle formData0 lat lng r s
  | EndMarkerCalled lat lng => setEndMarker_call lat lng s
  | EndMarkerSettled formData0 lat lng r =>
      setEndMarker_settle formData0 lat lng r s
  | MapOpened type => openMapForLocation type s
  | MapClosed => setShowMap (fun _ => false) s
  | MapModeSet mode => setMapMode (fun _ => mode) s
  | DomainSet d => setDomain (fun _ => d) s
  | FormEdited edit => setFormData edit s
  end.

Definition run (events : list Event) (s : App) : App :=
  fold_left (fun acc e => step e acc) events s.

Inductive reachable : App -> Prop :=
| reachable_initial : reachable initialApp
| reachable_step : forall e s, reachable s -> reachable (step e s).

(** ** [debounce] and [debouncedSearch]

    Time is counted in milliseconds.  The page keeps the callbacks
    scheduled with [setTimeout]; a callback of [debounce] is
    [() => func(...args)] with [func = searchLocation], so it is kept as
    the arguments it will pass. *)
Module Debounce.

Local Open Scope nat_scope.

Record Timer : Type := mkTimer {
  timer_id : nat;
  due : nat;
  args : string * LocType
}.

Record Page : Type := mkPage {
  clock : nat;
  next_id : nat;
  pending : list Timer;
  calls : list (string * LocType)   (* calls of [searchLocation], oldest first *)
}.

Definition initialPage : Page :=
  {| clock := 0; next_id := 1; pending := []; calls := [] |}.

(** [clearTimeout(id)]; [undefined] ([None]) and unknown ids do nothing. *)
Definition clearTimeout (id : option nat) (p : Page) : Page :=
  match id with
  | None => p
  | Some i =>
      mkPage (clock p) (next_id p)
             (filter (fun t => negb (Nat.eqb (timer_id t) i)) (pending p))
             (calls p)
  end.

(** [setTimeout(() => func(...args), wait)] returns the new id. *)
Definition setTimeout (a : string * LocType) (wait : nat) (p : Page)
  : nat * Page :=
  (next_id p,
   mkPage (clock p) (S (next_id p))
          (pending p ++ [mkTimer (next_id p) (clock p + wait) a])
          (calls p)).

(** The closure [debounce(func, wait)] returns: its variable [timeout]. *)
Record Debounced : Type := mkDebounced {
  wait : nat;
  timeout : option nat
}.

Definition debounce (wait : nat) : Debounced :=
  {| wait := wait; timeout := None |}.

(** A call [(...args) => { clearTimeout(timeout); timeout = setTimeout(...) }]. *)
Definition invoke (d : Debounced) (a : string * LocType) (p : Page)
  : Debounced * Page :=
  let p1 := clearTimeout (timeout d) p in
  let (id, p2) := setTimeout a (wait d) p1 in
  (mkDebounced (wait d) (Some id), p2).

(** [dt] milliseconds pass: the callbacks that fall due run, in the order
    they were scheduled (all delays are equal here, so that is the order
    they fall due). *)
Definition elapse (dt : nat) (p : Page) : Page :=
  let t := clock p + dt in
  mkPage t (next_id p)
         (filter (fun x => negb (due x <=? t)) (pending p))
         (calls p ++ map args (filter (fun x => due x <=? t) (pending p))).

(** The calls of [searchLocation] that go on to [fetch]: those whose
    query has at least three characters. *)
Definition geocoding_requests (p : Page) : list (string * LocType) :=
  filter (fun a => negb (String.length (fst a) <? 3)) (calls p).

(** One change of a search input: [dt] milliseconds after the previous
    one, the field holds [value]. *)
Definition Change : Type := (nat * string * LocType)%type.

(** The component body runs [const debouncedSearch = debounce(searchLocation, 500)]
    on every render, and the [onChange] handler, after calling
    [debouncedSearch(e.target.value, type)] of its render, has set
    [locationSearch], which renders the component again. *)
Definition render : Debounced := debounce 500.

Definition onChange (value : string) (type : LocType)
  (st : Debounced * Page) : Debounced * Page :=
  let (_, p1) := invoke (fst st) (value, type) (snd st) in
  (render, p1).

Definition type_in (st : Debounced * Page) (ch : Change) : Debounced * Page :=
  let '(dt, value, type) := ch in
  onChange value type (fst st, elapse dt (snd st)).

(** The page after the changes [chs] and a final silence of [rest]
    milliseconds. *)
Definition session (chs : list Change) (rest : nat) : Page :=
  elapse rest (snd (fold_left type_in chs (render, initialPage))).

(** The same inputs through one debounced function kept across the
    changes, which is what [debounce] is written for. *)
Definition type_in_kept (st : Debounced * Page) (ch : Change)
  : Debounced * Page :=
  let '(dt, value, type) := ch in
  invoke (fst st) (value, type) (elapse dt (snd st)).

Definition session_kept (chs : list Change) (rest : nat) : Page :=
  elapse rest (snd (fold_left type_in_kept chs (debounce 500, initialPage))).

(** Consecutive changes are less than [w] milliseconds apart (the delay
    before the first one does not count). *)
Definition rapid (w : nat) (chs : list Change) : Prop :=
  match chs with
  | [] => True
  | _ :: later => Forall (fun ch => fst (fst ch) < w)%nat later
  end.

(** The arguments a change passes to [debouncedSearch]. *)
Definition change_args (ch : Change) : string * LocType :=
  (snd (fst ch), snd ch).

(** One timer is pending, the one the kept closure remembers, and nothing
    has been dispatched. *)
Definition one_pending (a : string * LocType) (st : Debounced * Page) : Prop :=
  wait (fst st) = 500 /\
  calls (snd st) = [] /\
  exists id, timeout (fst st) = Some id /\
             pending (snd st) = [mkTimer id (clock (snd st) + 500) a].

Definition due_order (t u : Timer) : Prop := due t <= due u.

(** In the component every closure is new: its [timeout] is unset, so
    nothing is ever cleared, and the timers wait in the order they fall
    due.  [sent] lists the arguments of the changes made so far. *)
Definition all_pending (sent : list (string * LocType)) (st : Debounced * Page)
  : Prop :=
  fst st = render /\
  (calls (snd st) ++ map args (pending (snd st)))%list = sent /\
  StronglySorted due_order (pending (snd st)) /\
  Forall (fun t => due t <= clock (snd st) + 500) (pending (snd st)).

End Debounce.

(** ** The click handler of the map

    [handleClick] is a closure of a render: its [mapMode], and the
    [formData] that its [setStartMarker] or [setEndMarker] reads after the
    reverse lookup, are those of that render ([mapMode0], [formData0]).
    The statements that run at the click: [setStartMarker] runs up to its
    [await], then [setMapMode('end')]. *)
Definition handleClick_call (mapMode0 : option LocType) (lat lng : R)
  (s : App) : App :=
  match mapMode0 with
  | Some at_start =>
      setMapMode (fun _ => Some at_end) (setStartMarker_call lat lng s)
  | Some at_end => setEndMarker_call lat lng s
  | None => s
  end.

(** What runs when the reverse lookup of that click settles. *)
Definition handleClick_settle (mapMode0 : option LocType)
  (formData0 : FormData) (lat lng : R) (r : FetchResult Nominatim.Place)
  (s : App) : App :=
  match mapMode0 with
  | Some at_start => setStartMarker_settle formData0 lat lng r s
  | Some at_end => setEndMarker_settle formData0 lat lng r s
  | None => s
  end.

(** Two clicks on the map.  The first is handled by the closure of the
    render of the state [s] in which it arrives; it changes [mapMode] and
    the coordinates, so the effect registers the closure of the next
    render, which handles the second click.  The reverse lookup of the
    first click settles before the second click, or after it and before
    the second lookup, or after the second lookup. *)
Inductive Schedule : Type :=
| first_settles_before_second_click
| first_settles_before_second_lookup
| first_settles_last.

Definition two_clicks (schedule : Schedule)
  (lat1 lng1 : R) (r1 : FetchResult Nominatim.Place)
  (lat2 lng2 : R) (r2 : FetchResult Nominatim.Place) (s : App) : App :=
  let s1 := handleClick_call (mapMode s) lat1 lng1 s in
  let settle1 := handleClick_settle (mapMode s) (formData s) lat1 lng1 r1 in
  let click2 := handleClick_call (mapMode s1) lat2 lng2 in
  let settle2 := handleClick_settle (mapMode s1) (formData s1) lat2 lng2 r2 in
  match schedule with
  | first_settles_before_second_click => settle2 (click2 (settle1 s1))
  | first_settles_before_second_lookup => settle2 (settle1 (click2 s1))
  | first_settles_last => settle1 (settle2 (click2 s1))
  end.

(** ** Whole calls and accessors *)

(** A whole call of [handleOptimize] with nothing else happening before
    the request settles. *)
Definition handleOptimize (r : FetchResult string) (s : App) : App :=
  handleOptimize_settle r (handleOptimize_call s).

(** [prev[type === 'start' ? 'searchingStart' : 'searchingEnd']] *)
Definition searching (type : LocType) (p : LocationSearch) : bool :=
  match type with at_start => searchingStart p | at_end => searchingEnd p end.

(** The other end of the route. *)
Definition other (type : LocType) : LocType :=
  match type with at_start => at_end | at_end => at_start end.

(** The fields of [formData] and [locationSearch] that belong to one end. *)
Definition coord_lat (type : LocType) (p : FormData) : option R :=
  match type with at_start => start_lat p | at_end => end_lat p end.

Definition coord_lon (type : LocType) (p : FormData) : option R :=
  match type with at_start => start_lon p | at_end => end_lon p end.

Definition location_name (type : LocType) (p : FormData) : string :=
  match type with
  | at_start => start_location_name p
  | at_end => end_location_name p
  end.

Definition search_text (type : LocType) (p : LocationSearch) : string :=
  match type with at_start => ls_start p | at_end => ls_end p end.

(** ** What is derived for display *)

(** [Math.max(...xs)]; without arguments it is [-Infinity] ([None]). *)
Fixpoint math_max (xs : list R) : option R :=
  match xs with
  | [] => None
  | x :: rest =>
      match math_max rest with
      | None => Some x
      | Some m => Some (Rmax x m)
      end
  end.

(** An entry of [explainData.feature_importance]. *)
Record FeatureImportance : Type := mkFeatureImportance {
  feature : string;
  shap_value : R
}.

(** [Math.max(...explainData.feature_importance.map(f => Math.abs(f.shap_value)))] *)
Definition maxAbsValue (feature_importance : list FeatureImportance)
  : option R :=
  math_max (map (fun f => Rabs (shap_value f)) feature_importance).

(** [(Math.abs(feature.shap_value) / maxAbsValue) * 100], the width of the
    bar in percent (a division by [-Infinity] gives [0]).  The quotient is
    that of the real numbers: a floating-point quotient that underflows to
    [0] is not modelled. *)
Definition barWidth (f : FeatureImportance)
  (feature_importance : list FeatureImportance) : R :=
  match maxAbsValue feature_importance with
  | Some m => Rabs (shap_value f) / m * 100
  | None => 0
  end.

(** [name.split(',')]: the pieces between the commas, at least one. *)
Fixpoint split_comma (name : string) : list string :=
  match name with
  | EmptyString => [EmptyString]
  | String ch rest =>
      if Ascii.eqb ch ","%char
      then EmptyString :: split_comma rest
      else match split_comma rest with
           | [] => [String ch EmptyString]
           | piece :: pieces => String ch piece :: pieces
           end
  end.

(** [pieces.join(',')] *)
Fixpoint join_comma (pieces : list string) : string :=
  match pieces with
  | [] => EmptyString
  | [piece] => piece
  | piece :: rest => piece ++ String ","%char (join_comma rest)
  end.

(** [name.split(',')[0]], shown under a search field as the place chosen. *)
Definition first_piece (name : string) : string :=
  hd EmptyString (split_comma name).

(** [name.split(',').slice(0, 2).join(',')], shown in the map panel. *)
Definition first_two_pieces (name : string) : string :=
  join_comma (firstn 2 (split_comma name)).

(** The number of commas of a name. *)
Fixpoint commas (name : string) : nat :=
  match name with
  | EmptyString => 0%nat
  | String ch rest =>
      if Ascii.eqb ch ","%char then S (commas rest) else commas rest
  end.

(** ** Fixtures *)

Definition london : Nominatim.Suggestion :=
  Nominatim.mkSuggestion 51.5074 (-0.1278)
    "London, Greater London, England, United Kingdom".

Definition paris : Nominatim.Suggestion :=
  Nominatim.mkSuggestion 48.8566 2.3522 "Paris, Ile-de-France, France".

(** A place of the equator and a place of the prime meridian. *)
Definition quito_equator : Nominatim.Suggestion :=
  Nominatim.mkSuggestion 0 (-78.4558) "Mitad del Mundo, Quito, Ecuador".

Definition greenwich_meridian : Nominatim.Suggestion :=
  Nominatim.mkSuggestion 51.4779 0 "Prime Meridian, Greenwich, London".

(** * Properties *)

Import JsMath Haversine.

#[local] Arguments truthy : simpl never.

Ltac run_block :=
  unfold try_catch_finally, bind, await_fetch, await_json, update, throw, ret;
  simpl.

(** ** The distance computation *)

(** *** [atan2] on the first quadrant *)

Lemma atan2_sin_cos (h : R) :
  0 <= h <= PI / 2 -> atan2 (sin h) (cos h) = h.
Proof.
  intros [Hlo Hhi]. unfold atan2.
  assert (Hc : 0 <= cos h) by (apply cos_ge_0; lra).
  destruct (Rlt_dec 0 (cos h)) as [Hpos | Hnpos].
  - assert (Hlt : h < PI / 2).
    { destruct Hhi as [Hlt | Heq]; [exact Hlt |].
      rewrite Heq, cos_PI2 in Hpos. lra. }
    change (sin h / cos h) with (tan h). apply atan_tan. lra.
  - assert (Hz : cos h = 0) by lra.
    destruct (Rlt_dec (cos h) 0) as [Hneg | _]; [lra |].
    assert (Hh : h = PI / 2).
    { apply cos_inj; [lra | pose proof PI_RGT_0; lra | now rewrite cos_PI2]. }
    rewrite Hh, sin_PI2.
    destruct (Rlt_dec 0 1) as [_ | H]; [reflexivity | lra].
Qed.

Lemma atan2_0_1 : atan2 0 1 = 0.
Proof.
  unfold atan2. destruct (Rlt_dec 0 1) as [_ | H]; [ | lra].
  replace (0 / 1) with 0 by field. apply atan_0.
Qed.

(** For [0 <= x <= 1], [2 * atan2 (sqrt x) (sqrt (1 - x))] is the angle
    in [[0, PI]] whose cosine is [1 - 2 x]. *)
Lemma two_atan2_sqrt (x : R) :
  0 <= x <= 1 -> 2 * atan2 (sqrt x) (sqrt (1 - x)) = acos (1 - 2 * x).
Proof.
  intros Hx.
  set (t := acos (1 - 2 * x)).
  assert (Ht : 0 <= t <= PI) by (apply acos_bound).
  assert (Hcos : cos t = 1 - 2 * x) by (apply cos_acos; lra).
  assert (Hh : 0 <= t / 2 <= PI / 2) by lra.
  assert (Hs : 0 <= sin (t / 2)) by (apply sin_ge_0; pose proof PI_RGT_0; lra).
  assert (Hc : 0 <= cos (t / 2)) by (apply cos_ge_0; lra).
  assert (H2 : cos t = 1 - 2 * sin (t / 2) * sin (t / 2)).
  { rewrite <- cos_2a_sin. f_equal. field. }
  assert (Hsq : sin (t / 2) * sin (t / 2) = x) by lra.
  assert (Hcq : cos (t / 2) * cos (t / 2) = 1 - x).
  { pose proof (sin2_cos2 (t / 2)) as E. unfold Rsqr in E. lra. }
  rewrite <- Hsq at 1. rewrite <- Hcq.
  rewrite (sqrt_square _ Hs), (sqrt_square _ Hc).
  rewrite (atan2_sin_cos _ Hh). field.
Qed.

(** *** The haversine term [a] *)

Lemma radians_lat_bound (lat : R) :
  valid_lat lat -> - (PI / 2) <= lat * PI / 180 <= PI / 2.
Proof.
  unfold valid_lat. intros [Hlo Hhi]. pose proof PI_RGT_0 as Hpi.
  split; nra.
Qed.

Lemma cos_lat_nonneg (lat : R) : valid_lat lat -> 0 <= cos (lat * PI / 180).
Proof.
  intros H. destruct (radians_lat_bound lat H). now apply cos_ge_0.
Qed.

Lemma sin_half_sqr (x : R) : sin (x / 2) * sin (x / 2) = (1 - cos x) / 2.
Proof.
  replace (cos x) with (cos (2 * (x / 2))) by (f_equal; field).
  rewrite cos_2a_sin. field.
Qed.

(** [1 - 2 a] is the cosine of the spherical law of cosines. *)
Lemma a_law_of_cosines (lat1 lon1 lat2 lon2 : R) :
  1 - 2 * a lat1 lon1 lat2 lon2 =
  sin (lat1 * PI / 180) * sin (lat2 * PI / 180) +
  cos (lat1 * PI / 180) * cos (lat2 * PI / 180) *
  cos ((lon2 - lon1) * PI / 180).
Proof.
  unfold a, dLat, dLon.
  set (p1 := lat1 * PI / 180). set (p2 := lat2 * PI / 180).
  replace ((lat2 - lat1) * PI / 180) with (p2 - p1) by (unfold p1, p2; field).
  set (dl := (lon2 - lon1) * PI / 180).
  pose proof (sin_half_sqr (p2 - p1)) as E1.
  pose proof (sin_half_sqr dl) as E2.
  rewrite cos_minus in E1.
  replace (sin ((p2 - p1) / 2) * sin ((p2 - p1) / 2) +
           cos p1 * cos p2 * sin (dl / 2) * sin (dl / 2))
    with (sin ((p2 - p1) / 2) * sin ((p2 - p1) / 2) +
          cos p1 * cos p2 * (sin (dl / 2) * sin (dl / 2))) by ring.
  rewrite E1, E2. field.
Qed.

Lemma a_bounds (lat1 lon1 lat2 lon2 : R) :
  valid_lat lat1 -> valid_lat lat2 -> 0 <= a lat1 lon1 lat2 lon2 <= 1.
Proof.
  intros H1 H2.
  pose proof (cos_lat_nonneg lat1 H1) as C1.
  pose proof (cos_lat_nonneg lat2 H2) as C2.
  split.
  - unfold a.
    pose proof (Rle_0_sqr (sin (dLat lat1 lat2 / 2))) as S1.
    pose proof (Rle_0_sqr (sin (dLon lon1 lon2 / 2))) as S2.
    unfold Rsqr in S1, S2.
    pose proof (Rmult_le_pos _ _ C1 C2) as C12.
    pose proof (Rmult_le_pos _ _ C12 S2) as T. lra.
  - pose proof (a_law_of_cosines lat1 lon1 lat2 lon2) as E.
    set (p1 := lat1 * PI / 180) in *. set (p2 := lat2 * PI / 180) in *.
    set (dl := (lon2 - lon1) * PI / 180) in *.
    pose proof (COS_bound dl) as [Dlo Dhi].
    pose proof (cos_plus p1 p2) as Ep.
    pose proof (COS_bound (p1 + p2)) as [Plo Phi].
    pose proof (Rmult_le_pos _ _ C1 C2) as C12.
    assert (cos p1 * cos p2 * cos dl >= - (cos p1 * cos p2)) by nra.
    lra.
Qed.

(** The central angle the source computes is the angular separation of
    the two points. *)
Lemma c_angular_separation (lat1 lon1 lat2 lon2 : R) :
  valid_lat lat1 -> valid_lat lat2 ->
  c lat1 lon1 lat2 lon2 = HaversineSpec.angular_separation lat1 lon1 lat2 lon2.
Proof.
  intros H1 H2. unfold c.
  rewrite (two_atan2_sqrt _ (a_bounds lat1 lon1 lat2 lon2 H1 H2)).
  rewrite a_law_of_cosines.
  unfold HaversineSpec.angular_separation, HaversineSpec.radians.
  replace (lat1 * (PI / 180)) with (lat1 * PI / 180) by field.
  replace (lat2 * (PI / 180)) with (lat2 * PI / 180) by field.
  replace ((lon2 - lon1) * (PI / 180)) with ((lon2 - lon1) * PI / 180) by field.
  reflexivity.
Qed.

(** *** Source and specification wordings agree *)

Lemma a_spec (lat1 lon1 lat2 lon2 : R) :
  a lat1 lon1 lat2 lon2 = HaversineSpec.hav_a lat1 lon1 lat2 lon2.
Proof.
  unfold a, HaversineSpec.hav_a, HaversineSpec.radians, dLat, dLon, Rsqr.
  replace ((lat2 - lat1) * PI / 180) with ((lat2 - lat1) * (PI / 180)) by field.
  replace ((lon2 - lon1) * PI / 180) with ((lon2 - lon1) * (PI / 180)) by field.
  replace (lat1 * PI / 180) with (lat1 * (PI / 180)) by field.
  replace (lat2 * PI / 180) with (lat2 * (PI / 180)) by field.
  ring.
Qed.

Lemma distance_spec (lat1 lon1 lat2 lon2 : R) :
  distance lat1 lon1 lat2 lon2 = HaversineSpec.great_circle_km lat1 lon1 lat2 lon2.
Proof.
  unfold distance, c, HaversineSpec.great_circle_km,
    HaversineSpec.central_angle, R_earth.
  now rewrite a_spec.
Qed.

(** *** [toFixed] *)

Lemma pow10_pos (f : nat) : 0 < 10 ^ f.
Proof. apply pow_lt. lra. Qed.


Lemma toFixed_mono (f : nat) (x y : R) :
  0 <= x -> x <= y -> toFixed f x <= toFixed f y.
Proof.
  intros Hx Hxy. unfold toFixed.
  destruct (Rlt_dec x 0) as [Hneg | _]; [lra |].
  destruct (Rlt_dec y 0) as [Hneg | _]; [lra |].
  pose proof (pow10_pos f) as Hp.
  apply Rmult_le_compat_r; [left; now apply Rinv_0_lt_compat |].
  apply IZR_le. unfold nearest_scaled. apply Zfloor_le.
  apply Rplus_le_compat_r. apply Rmult_le_compat_r; lra.
Qed.

Lemma toFixed_0 (f : nat) : toFixed f 0 = 0.
Proof.
  unfold toFixed. destruct (Rlt_dec 0 0) as [H | _]; [lra |].
  unfold nearest_scaled. rewrite (Zfloor_eq 0); [ | simpl; lra].
  simpl. field. pose proof (pow10_pos f). lra.
Qed.

(** A number of [f] decimals is printed as it is. *)
Lemma toFixed_exact (f : nat) (n : Z) :
  (0 <= n)%Z -> toFixed f (IZR n / 10 ^ f) = IZR n / 10 ^ f.
Proof.
  intros Hn. pose proof (pow10_pos f) as Hp. unfold toFixed.
  assert (H0 : 0 <= IZR n / 10 ^ f).
  { apply Rmult_le_pos; [now apply IZR_le | left; now apply Rinv_0_lt_compat]. }
  destruct (Rlt_dec (IZR n / 10 ^ f) 0) as [Hneg | _]; [lra |].
  unfold nearest_scaled.
  replace (IZR n / 10 ^ f * 10 ^ f) with (IZR n) by (field; lra).
  rewrite (Zfloor_eq n); [reflexivity | lra].
Qed.

Lemma toFixed_small (x : R) : 0 <= x < / 200 -> toFixed 2 x = 0.
Proof.
  intros [Hlo Hhi]. unfold toFixed.
  destruct (Rlt_dec x 0) as [Hneg | _]; [lra |].
  unfold nearest_scaled. rewrite (Zfloor_eq 0); [ | simpl; lra].
  simpl. field.
Qed.

(** *** Identical points *)

Lemma a_same_point (lat lon : R) : a lat lon lat lon = 0.
Proof.
  unfold a, dLat, dLon.
  replace ((lat - lat) * PI / 180 / 2) with 0 by field.
  replace ((lon - lon) * PI / 180 / 2) with 0 by field.
  rewrite sin_0. ring.
Qed.

Lemma distance_same_point (lat lon : R) : distance lat lon lat lon = 0.
Proof.
  unfold distance, c. rewrite a_same_point.
  replace (1 - 0) with 1 by ring.
  rewrite sqrt_0, sqrt_1, atan2_0_1. ring.
Qed.

(** C6: for every coordinate [(lat, lon)] with [lat] in [[-90, 90]] and
    [lon] in [[-180, 180]], the distance from the point to itself is
    exactly [0]: both the distance [calculateDistance] computes and the
    [distance_km] it stores. *)
Theorem distance_to_itself (lat lon : R) (prev : FormData) :
  valid_lat lat -> valid_lon lon ->
  distance lat lon lat lon = 0 /\
  distance_km (calculateDistance lat lon lat lon prev) = 0.
Proof.
  intros _ _. split.
  - apply distance_same_point.
  - unfold calculateDistance. simpl.
    rewrite distance_same_point. apply toFixed_0.
Qed.

Lemma distance_to_itself_witness :
  distance 51.5074 (-0.1278) 51.5074 (-0.1278) = 0 /\
  distance_km (calculateDistance 51.5074 (-0.1278) 51.5074 (-0.1278)
                 initialFormData) = 0.
Proof.
  apply (distance_to_itself 51.5074 (-0.1278) initialFormData);
    unfold valid_lat, valid_lon; lra.
Defined.

(** *** Symmetry *)

Lemma a_sym (lat1 lon1 lat2 lon2 : R) :
  a lat1 lon1 lat2 lon2 = a lat2 lon2 lat1 lon1.
Proof.
  unfold a, dLat, dLon.
  replace ((lat1 - lat2) * PI / 180 / 2) with (- ((lat2 - lat1) * PI / 180 / 2))
    by field.
  replace ((lon1 - lon2) * PI / 180 / 2) with (- ((lon2 - lon1) * PI / 180 / 2))
    by field.
  rewrite !sin_neg. ring.
Qed.

Lemma distance_sym (lat1 lon1 lat2 lon2 : R) :
  distance lat1 lon1 lat2 lon2 = distance lat2 lon2 lat1 lon1.
Proof. unfold distance, c. now rewrite a_sym. Qed.

(** C7: the distance is symmetric in its two points: for all valid
    coordinates, [distance(A, B) = distance(B, A)], and [calculateDistance]
    leaves the same form state for both orders. *)
Theorem distance_symmetric (lat1 lon1 lat2 lon2 : R) (prev : FormData) :
  valid_lat lat1 -> valid_lon lon1 -> valid_lat lat2 -> valid_lon lon2 ->
  distance lat1 lon1 lat2 lon2 = distance lat2 lon2 lat1 lon1 /\
  calculateDistance lat1 lon1 lat2 lon2 prev =
  calculateDistance lat2 lon2 lat1 lon1 prev.
Proof.
  intros _ _ _ _. split.
  - apply distance_sym.
  - unfold calculateDistance. now rewrite distance_sym.
Qed.

Lemma distance_symmetric_witness :
  distance 51.5074 (-0.1278) 48.8566 2.3522 =
  distance 48.8566 2.3522 51.5074 (-0.1278) /\
  calculateDistance 51.5074 (-0.1278) 48.8566 2.3522 initialFormData =
  calculateDistance 48.8566 2.3522 51.5074 (-0.1278) initialFormData.
Proof.
  apply (distance_symmetric 51.5074 (-0.1278) 48.8566 2.3522 initialFormData);
    unfold valid_lat, valid_lon; lra.
Defined.

(** *** Sign and monotonicity *)




(** *** Points of the equator *)

Lemma angular_separation_equator (lon : R) :
  0 <= lon <= 180 -> HaversineSpec.angular_separation 0 0 0 lon = lon * (PI / 180).
Proof.
  intros [Hlo Hhi]. unfold HaversineSpec.angular_separation, HaversineSpec.radians.
  replace (0 * (PI / 180)) with 0 by ring.
  replace ((lon - 0) * (PI / 180)) with (lon * (PI / 180)) by ring.
  rewrite sin_0, cos_0.
  replace (0 * 0 + 1 * 1 * cos (lon * (PI / 180))) with (cos (lon * (PI / 180)))
    by ring.
  apply acos_cos. pose proof PI_RGT_0. split; nra.
Qed.

Lemma valid_lat_0 : valid_lat 0.
Proof. unfold valid_lat; lra. Qed.

Lemma distance_equator (lon : R) :
  0 <= lon <= 180 -> distance 0 0 0 lon = 6371 * (lon * (PI / 180)).
Proof.
  intros H. unfold distance, R_earth.
  rewrite (c_angular_separation 0 0 0 lon valid_lat_0 valid_lat_0).
  now rewrite angular_separation_equator.
Qed.

Lemma distance_equator_small (lon : R) :
  0 < lon <= 1 / 50000 ->
  0 < distance 0 0 0 lon < / 200 /\
  distance_km (calculateDistance 0 0 0 lon initialFormData) = 0.
Proof.
  intros [Hlo Hhi].
  assert (Hd : 0 < distance 0 0 0 lon < / 200).
  { rewrite distance_equator by lra.
    pose proof PI_RGT_0. pose proof PI_4. split; nra. }
  split; [exact Hd |].
  unfold calculateDistance. simpl. apply toFixed_small. lra.
Qed.


(** C1, as amended: [calculateDistance] computes the haversine distance
    as specified ([a], the central angle [c = 2 * atan2 (sqrt a) (sqrt (1 - a))]
    and [6371 * c]); it does not return it but stores it, rounded to two
    decimals, in the field [distance_km] of the form state, the other
    fields being kept; the stored value depends on the four inputs only. *)
Theorem calculateDistance_haversine (lat1 lon1 lat2 lon2 : R) (prev : FormData) :
  distance lat1 lon1 lat2 lon2 =
  HaversineSpec.great_circle_km lat1 lon1 lat2 lon2 /\
  calculateDistance lat1 lon1 lat2 lon2 prev =
  with_distance_km
    (toFixed 2 (HaversineSpec.great_circle_km lat1 lon1 lat2 lon2)) prev /\
  (forall prev',
      distance_km (calculateDistance lat1 lon1 lat2 lon2 prev') =
      distance_km (calculateDistance lat1 lon1 lat2 lon2 prev)).
Proof.
  split; [apply distance_spec |]. split.
  - unfold calculateDistance. now rewrite distance_spec.
  - reflexivity.
Qed.

(** C1, as stated, fails: what [calculateDistance] hands on is not
    [6371 * c] but its rounding to two decimals, and the call is not free
    of side effects, since it changes the form state. *)
Lemma calculateDistance_haversine_counterexample :
  distance_km (calculateDistance 0 0 0 (1 / 100000) initialFormData) <>
  HaversineSpec.great_circle_km 0 0 0 (1 / 100000) /\
  calculateDistance 0 0 0 (1 / 100000) initialFormData <> initialFormData.
Proof.
  destruct (distance_equator_small (1 / 100000)) as [[Hpos _] Hkm]; [lra |].
  split.
  - rewrite Hkm, <- distance_spec. lra.
  - intros E. apply (f_equal distance_km) in E. rewrite Hkm in E.
    simpl in E. lra.
Qed.

(** *** Enclosures of [PI], [sin] and [cos] *)

Lemma PI_enclosure : 314159 / 100000 < PI < 314160 / 100000.
Proof.
  pose proof (PI_2_3_7_ineq 3) as [Hlo Hhi].
  unfold sum_f_R0, tg_alt, PI_2_3_7_tg, Ratan_seq in Hlo, Hhi.
  simpl in Hlo, Hhi.
  split; lra.
Qed.

Lemma INR_fact_eval (n : nat) (z : Z) :
  Z.of_nat (fact n) = z -> INR (fact n) = IZR z.
Proof. intros <-. apply INR_IZR_INZ. Qed.

Lemma cos_approx_3 (x : R) :
  cos_approx x 3 = 1 - x ^ 2 / 2 + x ^ 4 / 24 - x ^ 6 / 720.
Proof.
  unfold cos_approx, cos_term, sum_f_R0.
  rewrite (INR_fact_eval (2 * 0) 1), (INR_fact_eval (2 * 1) 2),
    (INR_fact_eval (2 * 2) 24), (INR_fact_eval (2 * 3) 720) by reflexivity.
  simpl. field.
Qed.

Lemma cos_approx_4 (x : R) :
  cos_approx x 4 = 1 - x ^ 2 / 2 + x ^ 4 / 24 - x ^ 6 / 720 + x ^ 8 / 40320.
Proof.
  unfold cos_approx, cos_term, sum_f_R0.
  rewrite (INR_fact_eval (2 * 0) 1), (INR_fact_eval (2 * 1) 2),
    (INR_fact_eval (2 * 2) 24), (INR_fact_eval (2 * 3) 720),
    (INR_fact_eval (2 * 4) 40320) by reflexivity.
  simpl. field.
Qed.

Lemma sin_approx_1 (x : R) : sin_approx x 1 = x - x ^ 3 / 6.
Proof.
  unfold sin_approx, sin_term, sum_f_R0.
  rewrite (INR_fact_eval (2 * 0 + 1) 1), (INR_fact_eval (2 * 1 + 1) 6)
    by reflexivity.
  simpl. field.
Qed.

(** An angle of the first quadrant between two bounds: its sine and
    cosine lie between Taylor polynomials at the bounds. *)
Lemma sin_enclosure (x lo hi : R) :
  0 < lo -> lo <= x -> x <= hi -> hi <= 3 / 2 ->
  lo - lo ^ 3 / 6 <= sin x <= hi.
Proof.
  intros Hlo Hx Hhi Hq. pose proof PI2_3_2 as Hpi. split.
  - apply Rle_trans with (sin lo).
    + rewrite <- sin_approx_1. apply (pre_sin_bound lo 0); lra.
    + apply sin_incr_1; lra.
  - left. apply Rlt_le_trans with x; [apply sin_lt_x; lra | exact Hhi].
Qed.

Lemma cos_enclosure (x lo hi : R) :
  0 <= lo -> lo <= x -> x <= hi -> hi <= 3 / 2 ->
  1 - hi ^ 2 / 2 + hi ^ 4 / 24 - hi ^ 6 / 720 <= cos x <=
  1 - lo ^ 2 / 2 + lo ^ 4 / 24 - lo ^ 6 / 720 + lo ^ 8 / 40320.
Proof.
  intros Hlo Hx Hhi Hq. pose proof PI2_3_2 as Hpi. split.
  - apply Rle_trans with (cos hi).
    + rewrite <- cos_approx_3. apply (pre_cos_bound hi 1); lra.
    + apply cos_decr_1; lra.
  - apply Rle_trans with (cos lo).
    + apply cos_decr_1; lra.
    + rewrite <- cos_approx_4. apply (pre_cos_bound lo 1); lra.
Qed.

Lemma cos_approx_1 (x : R) : cos_approx x 1 = 1 - x ^ 2 / 2.
Proof.
  unfold cos_approx, cos_term, sum_f_R0.
  rewrite (INR_fact_eval (2 * 0) 1), (INR_fact_eval (2 * 1) 2) by reflexivity.
  simpl. field.
Qed.

Lemma cos_approx_2 (x : R) : cos_approx x 2 = 1 - x ^ 2 / 2 + x ^ 4 / 24.
Proof.
  unfold cos_approx, cos_term, sum_f_R0.
  rewrite (INR_fact_eval (2 * 0) 1), (INR_fact_eval (2 * 1) 2),
    (INR_fact_eval (2 * 2) 24) by reflexivity.
  simpl. field.
Qed.

(** An angle of [[0, PI]] is placed by its cosine. *)
Lemma angle_enclosure (t lo hi : R) :
  0 <= t <= PI -> 0 <= lo -> hi <= 3 / 2 ->
  cos t <= 1 - lo ^ 2 / 2 ->
  1 - hi ^ 2 / 2 + hi ^ 4 / 24 <= cos t ->
  lo <= hi -> lo <= t <= hi.
Proof.
  intros Ht Hlo Hhi Hclo Hchi Hle. pose proof PI2_3_2 as Hpi. split.
  - destruct (Rle_or_lt lo t) as [H | H]; [exact H | exfalso].
    assert (cos lo < cos t) by (apply cos_decreasing_1; lra).
    destruct (pre_cos_bound lo 0) as [B _]; [lra | lra |].
    change (cos_approx lo (2 * 0 + 1)) with (cos_approx lo 1) in B.
    rewrite cos_approx_1 in B. lra.
  - destruct (Rle_or_lt t hi) as [H | H]; [exact H | exfalso].
    assert (cos t < cos hi) by (apply cos_decreasing_1; lra).
    destruct (pre_cos_bound hi 0) as [_ B]; [lra | lra |].
    change (cos_approx hi (2 * (0 + 1))) with (cos_approx hi 2) in B.
    rewrite cos_approx_2 in B. lra.
Qed.

(** *** London to Paris *)

Lemma a_london_paris :
  72675 / 100000000 <= a 51.5074 (-0.1278) 48.8566 2.3522
  <= 72742 / 100000000.
Proof.
  pose proof PI_enclosure as [Plo Phi].
  unfold a, dLat, dLon.
  replace ((48.8566 - 51.5074) * PI / 180 / 2) with (- (13254 / 10000 * PI / 180))
    by lra.
  replace ((2.3522 - -0.1278) * PI / 180 / 2) with (124 / 100 * PI / 180) by lra.
  rewrite sin_neg.
  set (s1 := sin (13254 / 10000 * PI / 180)).
  set (s2 := sin (124 / 100 * PI / 180)).
  set (c1 := cos (51.5074 * PI / 180)).
  set (c2 := cos (48.8566 * PI / 180)).
  assert (S1 : 2313 / 100000 <= s1 <= 2314 / 100000).
  { destruct (sin_enclosure (13254 / 10000 * PI / 180)
                (13254 / 10000 * (314159 / 100000) / 180)
                (13254 / 10000 * (314160 / 100000) / 180)) as [L U];
      try lra.
    fold s1 in L, U. split; lra. }
  assert (S2 : 2164 / 100000 <= s2 <= 2165 / 100000).
  { destruct (sin_enclosure (124 / 100 * PI / 180)
                (124 / 100 * (314159 / 100000) / 180)
                (124 / 100 * (314160 / 100000) / 180)) as [L U];
      try lra.
    fold s2 in L, U. split; lra. }
  assert (C1 : 6224 / 10000 <= c1 <= 62242 / 100000).
  { destruct (cos_enclosure (51.5074 * PI / 180)
                (515074 / 10000 * (314159 / 100000) / 180)
                (515074 / 10000 * (314160 / 100000) / 180)) as [L U];
      try lra.
    fold c1 in L, U. split; lra. }
  assert (C2 : 65793 / 100000 <= c2 <= 65795 / 100000).
  { destruct (cos_enclosure (48.8566 * PI / 180)
                (488566 / 10000 * (314159 / 100000) / 180)
                (488566 / 10000 * (314160 / 100000) / 180)) as [L U];
      try lra.
    fold c2 in L, U. split; lra. }
  assert (Q1 : (2313 / 100000) * (2313 / 100000) <= s1 * s1
               <= (2314 / 100000) * (2314 / 100000)) by (split; nra).
  assert (Q2 : (2164 / 100000) * (2164 / 100000) <= s2 * s2
               <= (2165 / 100000) * (2165 / 100000)) by (split; nra).
  assert (Q3 : (6224 / 10000) * (65793 / 100000) <= c1 * c2
               <= (62242 / 100000) * (65795 / 100000)) by (split; nra).
  assert (Q4 : (6224 / 10000) * (65793 / 100000) *
               ((2164 / 100000) * (2164 / 100000)) <= c1 * c2 * (s2 * s2)
               <= (62242 / 100000) * (65795 / 100000) *
                  ((2165 / 100000) * (2165 / 100000))).
  { split; apply Rmult_le_compat; lra. }
  replace (- s1 * - s1 + c1 * c2 * s2 * s2)
    with (s1 * s1 + c1 * c2 * (s2 * s2)) by ring.
  split; lra.
Qed.

Lemma valid_lat_london : valid_lat 51.5074.
Proof. unfold valid_lat; lra. Qed.

Lemma valid_lat_paris : valid_lat 48.8566.
Proof. unfold valid_lat; lra. Qed.

Lemma distance_london_paris :
  343 <= distance 51.5074 (-0.1278) 48.8566 2.3522 <= 344.
Proof.
  pose proof a_london_paris as [Alo Ahi].
  pose proof (a_bounds 51.5074 (-0.1278) 48.8566 2.3522
                valid_lat_london valid_lat_paris) as Ab.
  unfold distance, R_earth, c. rewrite (two_atan2_sqrt _ Ab).
  set (x := a 51.5074 (-0.1278) 48.8566 2.3522) in *.
  destruct (angle_enclosure (acos (1 - 2 * x)) (343 / 6371) (344 / 6371))
    as [L U]; try lra.
  - apply acos_bound.
  - rewrite cos_acos by lra. lra.
  - rewrite cos_acos by lra. lra.
Qed.

Lemma toFixed_2_between (x : R) (lo hi : Z) :
  (0 <= lo)%Z -> IZR lo <= x <= IZR hi ->
  IZR lo <= toFixed 2 x <= IZR hi.
Proof.
  intros Hlo [Hl Hh].
  assert (H0 : 0 <= IZR lo) by now apply IZR_le.
  assert (E : forall n : Z, (0 <= n)%Z -> toFixed 2 (IZR n) = IZR n).
  { intros n Hn. pose proof (toFixed_exact 2 (n * 100) ltac:(lia)) as T.
    rewrite mult_IZR in T.
    replace (IZR n * 100 / 10 ^ 2) with (IZR n) in T by (simpl; field).
    exact T. }
  assert (Hhi : (0 <= hi)%Z) by (apply le_IZR; lra).
  split.
  - rewrite <- (E lo Hlo) at 1. apply toFixed_mono; lra.
  - rewrite <- (E hi Hhi). apply toFixed_mono; lra.
Qed.

(** C9: the distance computed between London (51.5074, -0.1278) and Paris
    (48.8566, 2.3522) lies between 343 and 344 kilometres, and so does the
    [distance_km] that [calculateDistance] stores. *)
Theorem london_paris_distance (prev : FormData) :
  343 <= distance 51.5074 (-0.1278) 48.8566 2.3522 <= 344 /\
  343 <= distance_km (calculateDistance 51.5074 (-0.1278) 48.8566 2.3522 prev)
      <= 344.
Proof.
  split; [apply distance_london_paris |].
  unfold calculateDistance. simpl.
  apply (toFixed_2_between _ 343 344); [lia | apply distance_london_paris].
Qed.

(** ** The route selection

    *** Truthiness of coordinates *)

Lemma truthy_nonzero (v : R) : v <> 0 -> truthy (Some v) = true.
Proof.
  intros H. unfold truthy. destruct (Req_dec_T v 0); [contradiction | reflexivity].
Qed.

Lemma truthy_zero : truthy (Some 0) = false.
Proof.
  unfold truthy. destruct (Req_dec_T 0 0) as [_ | H]; [reflexivity | now elim H].
Qed.

Lemma andb_truthy_zero_l (b : bool) : truthy (Some 0) && b = false.
Proof. now rewrite truthy_zero. Qed.

Lemma andb_truthy_zero_r (b : bool) : b && truthy (Some 0) = false.
Proof. rewrite truthy_zero. apply andb_false_r. Qed.

Lemma truthy_Some (x : option R) :
  truthy x = true -> exists v, x = Some v /\ v <> 0.
Proof.
  destruct x as [v |]; unfold truthy; [ | discriminate].
  destruct (Req_dec_T v 0); [discriminate |]. intros _. now exists v.
Qed.

(** *** The distance card *)

(** The card is shown only when both coordinates are present. *)
Lemma displayed_distance_present (s : App) (d : R) :
  displayed_distance s = Some d ->
  start_lat (formData s) <> None /\ end_lat (formData s) <> None.
Proof.
  unfold displayed_distance.
  destruct (truthy (start_lat (formData s))) eqn:E1; [ | discriminate].
  destruct (truthy (end_lat (formData s))) eqn:E2; [ | discriminate].
  intros _.
  destruct (truthy_Some _ E1) as (v1 & -> & _).
  destruct (truthy_Some _ E2) as (v2 & -> & _).
  split; discriminate.
Qed.

(** Clearing either coordinate removes the card. *)
Lemma clearLocation_hides_distance (type : LocType) (s : App) :
  displayed_distance (clearLocation type s) = None.
Proof.
  destruct type; unfold displayed_distance; simpl; [reflexivity |].
  now rewrite andb_false_r.
Qed.

(** With non-zero coordinates, choosing a start while the end is set
    recomputes the distance and shows it. *)
Lemma select_start_recomputes (location : Nominatim.Suggestion) (s : App)
  (elat elon : R) :
  end_lat (formData s) = Some elat -> end_lon (formData s) = Some elon ->
  elat <> 0 -> elon <> 0 -> Nominatim.lat location <> 0 ->
  displayed_distance (handleLocationSelect location at_start s) =
  Some (toFixed 2 (distance (Nominatim.lat location) (Nominatim.lon location)
                     elat elon)).
Proof.
  intros Ela Elo Hla Hlo Hl.
  unfold handleLocationSelect, displayed_distance.
  rewrite Ela, Elo, (truthy_nonzero _ Hla), (truthy_nonzero _ Hlo). simpl.
  rewrite Ela, (truthy_nonzero _ Hla), (truthy_nonzero _ Hl). reflexivity.
Qed.

Lemma select_end_recomputes (location : Nominatim.Suggestion) (s : App)
  (slat slon : R) :
  start_lat (formData s) = Some slat -> start_lon (formData s) = Some slon ->
  slat <> 0 -> slon <> 0 -> Nominatim.lat location <> 0 ->
  displayed_distance (handleLocationSelect location at_end s) =
  Some (toFixed 2 (distance slat slon
                     (Nominatim.lat location) (Nominatim.lon location))).
Proof.
  intros Ela Elo Hla Hlo Hl.
  unfold handleLocationSelect, displayed_distance.
  rewrite Ela, Elo, (truthy_nonzero _ Hla), (truthy_nonzero _ Hlo). simpl.
  rewrite Ela, (truthy_nonzero _ Hla), (truthy_nonzero _ Hl). reflexivity.
Qed.

(** The same for a marker placed on the map by a handler of the current
    render, however the reverse lookup settles. *)
Lemma place_start_recomputes (lat lng : R) (r : FetchResult Nominatim.Place)
  (s : App) (elat elon : R) :
  end_lat (formData s) = Some elat -> end_lon (formData s) = Some elon ->
  elat <> 0 -> elon <> 0 -> lat <> 0 ->
  displayed_distance (setStartMarker lat lng r s) =
  Some (toFixed 2 (distance lat lng elat elon)).
Proof.
  intros Ela Elo Hla Hlo Hl.
  unfold setStartMarker, setStartMarker_settle, setStartMarker_call,
    displayed_distance.
  rewrite Ela, Elo, (truthy_nonzero _ Hla), (truthy_nonzero _ Hlo).
  destruct r as [m | [|] [m | data]]; run_block;
    rewrite Ela, (truthy_nonzero _ Hla), (truthy_nonzero _ Hl); reflexivity.
Qed.

Lemma place_end_recomputes (lat lng : R) (r : FetchResult Nominatim.Place)
  (s : App) (slat slon : R) :
  start_lat (formData s) = Some slat -> start_lon (formData s) = Some slon ->
  slat <> 0 -> slon <> 0 -> lat <> 0 ->
  displayed_distance (setEndMarker lat lng r s) =
  Some (toFixed 2 (distance slat slon lat lng)).
Proof.
  intros Ela Elo Hla Hlo Hl.
  unfold setEndMarker, setEndMarker_settle, setEndMarker_call,
    displayed_distance.
  rewrite Ela, Elo, (truthy_nonzero _ Hla), (truthy_nonzero _ Hlo).
  destruct r as [m | [|] [m | data]]; run_block;
    rewrite Ela, (truthy_nonzero _ Hla), (truthy_nonzero _ Hl); reflexivity.
Qed.

(** C4, on the code: a coordinate that is [0] counts as unset.  With the
    end on the equator (latitude [0]), choosing the start leaves both
    coordinates set, yet the distance is not recomputed ([distance_km]
    keeps its initial [5]) and no distance is displayed.  With the end on
    the prime meridian (longitude [0]), choosing the start displays the
    stale [5] km, whatever the start: for Paris, and for the end point
    itself, whose distance is [0]. *)
Theorem route_distance_zero_coordinate :
  (let s := handleLocationSelect paris at_start
              (handleLocationSelect quito_equator at_end initialApp) in
   start_lat (formData s) = Some 48.8566 /\
   start_lon (formData s) = Some 2.3522 /\
   end_lat (formData s) = Some 0 /\
   end_lon (formData s) = Some (-78.4558) /\
   distance_km (formData s) = 5 /\
   displayed_distance s = None) /\
  (let s := handleLocationSelect paris at_start
              (handleLocationSelect greenwich_meridian at_end initialApp) in
   start_lat (formData s) = Some 48.8566 /\
   end_lat (formData s) = Some 51.4779 /\
   end_lon (formData s) = Some 0 /\
   displayed_distance s = Some 5) /\
  (let s := handleLocationSelect greenwich_meridian at_start
              (handleLocationSelect greenwich_meridian at_end initialApp) in
   displayed_distance s = Some 5 /\
   distance 51.4779 0 51.4779 0 = 0).
Proof.
  split; [ | split]; unfold handleLocationSelect, displayed_distance; simpl;
    rewrite ?andb_truthy_zero_l, ?andb_truthy_zero_r; simpl;
    rewrite ?andb_truthy_zero_l, ?andb_truthy_zero_r.
  - repeat split.
  - rewrite (truthy_nonzero 48.8566), (truthy_nonzero 51.4779) by lra.
    repeat split.
  - rewrite (truthy_nonzero 51.4779) by lra.
    split; [reflexivity | apply distance_same_point].
Qed.

(** ** Prediction requests and their history *)

Lemma slice_last_length {A : Type} (n : nat) (l : list A) :
  (List.length (slice_last n l) <= n)%nat.
Proof. unfold slice_last. rewrite length_skipn. lia. Qed.

Lemma handlePredict_settle_failed domain0 formData0 now r s :
  fetch_failed r = true ->
  handlePredict_settle domain0 formData0 now r s =
  setLoading (fun _ => false)
    (setError (fun _ => Some (match r with
                              | FetchRejected m => m
                              | FetchResponse _ _ => "Prediction failed"
                              end)) s).
Proof.
  destruct r as [m | [|] body]; simpl; intros H; try discriminate;
    unfold handlePredict_settle; run_block; reflexivity.
Qed.

Lemma handlePredict_settle_ok domain0 formData0 now data s :
  handlePredict_settle domain0 formData0 now
    (FetchResponse true (BodyJson data)) s =
  setLoading (fun _ => false)
    (setHistory (fun prev =>
       slice_last 10
         (prev ++ [ {| timestamp := now; h_domain := domain0;
                       input := match domain0 with
                                | transport => distance_km formData0
                                | energy => kwh formData0
                                end;
                       bayesian := bayesian_mean data |} ]))
       (setPredictions (fun _ => Some data) s)).
Proof. unfold handlePredict_settle; run_block; reflexivity. Qed.

Lemma reachable_run (events : list Event) : forall s,
  reachable s -> reachable (run events s).
Proof.
  induction events as [| e events IH]; intros s Hs; simpl; [exact Hs |].
  apply IH. now apply reachable_step.
Qed.

Lemma history_step e s :
  history (step e s) = history s \/
  exists entry, history (step e s) = slice_last 10 (history s ++ [entry]).
Proof.
  destruct e; simpl; try (left; reflexivity).
  - destruct r as [m | [|] [m | data]];
      try (left; unfold handlePredict_settle; run_block; reflexivity).
    right. rewrite handlePredict_settle_ok. simpl. eexists. reflexivity.
  - left. destruct r as [m | [|] [m | data]];
      unfold handleOptimize_settle; run_block; reflexivity.
  - left. unfold searchLocation_call.
    destruct (String.length query <? 3)%nat; reflexivity.
  - left. destruct r as [m | [|] [m | data]];
      unfold searchLocation_settle; run_block; reflexivity.
  - left. unfold handleLocationSelect. destruct type; simpl.
    + destruct (truthy (end_lat (formData s)) && truthy (end_lon (formData s)));
        reflexivity.
    + destruct (truthy (start_lat (formData s)) && truthy (start_lon (formData s)));
        reflexivity.
  - left. destruct type; reflexivity.
  - left. unfold setStartMarker_settle.
    destruct (truthy (end_lat formData0) && truthy (end_lon formData0));
      destruct r as [m | [|] [m | data]]; run_block; reflexivity.
  - left. unfold setEndMarker_settle.
    destruct (truthy (start_lat formData0) && truthy (start_lon formData0));
      destruct r as [m | [|] [m | data]]; run_block; reflexivity.
Qed.

(** What [slice(-n)] keeps is the end of the list: the list is what was
    dropped followed by what was kept, and what was kept has [n] elements,
    or all of them when there are fewer. *)
Lemma slice_last_suffix {A : Type} (n : nat) (l : list A) :
  exists dropped, l = (dropped ++ slice_last n l)%list.
Proof.
  exists (firstn (List.length l - n) l). unfold slice_last.
  symmetry. apply firstn_skipn.
Qed.

Lemma slice_last_length_min {A : Type} (n : nat) (l : list A) :
  List.length (slice_last n l) = Nat.min n (List.length l).
Proof. unfold slice_last. rewrite length_skipn. lia. Qed.

(** C10: the prediction history never holds more than 10 entries: in
    every reachable state its length is at most 10, and a successful
    [handlePredict] appends one entry and keeps the most recent 10: the
    new history is the end of the old history followed by the new entry,
    whatever was dropped was dropped from the front, and it has one entry
    more than the old history, up to 10 entries. *)
Theorem history_at_most_10 (s : App) :
  reachable s ->
  (List.length (history s) <= 10)%nat /\
  forall now data,
    let entry := {| timestamp := now; h_domain := domain s;
                    input := match domain s with
                             | transport => distance_km (formData s)
                             | energy => kwh (formData s)
                             end;
                    bayesian := bayesian_mean data |} in
    let s' := handlePredict now (FetchResponse true (BodyJson data)) s in
    (exists dropped, (history s ++ [entry])%list = (dropped ++ history s')%list) /\
    List.length (history s') = Nat.min 10 (List.length (history s) + 1) /\
    (List.length (history s') <= 10)%nat.
Proof.
  intros Hs. split.
  - induction Hs as [| e s Hs IH].
    + simpl. lia.
    + destruct (history_step e s) as [-> | [entry ->]].
      * exact IH.
      * apply slice_last_length.
  - intros now data. cbv zeta. unfold handlePredict.
    rewrite handlePredict_settle_ok. simpl. split; [ | split].
    + apply slice_last_suffix.
    + rewrite slice_last_length_min, length_app. reflexivity.
    + apply slice_last_length.
Qed.

(** The message the failure of a [/predict] request leaves in [error]. *)
Lemma handlePredict_failed now r s :
  fetch_failed r = true ->
  handlePredict now r s =
  setLoading (fun _ => false)
    (setError (fun _ => Some (match r with
                              | FetchRejected m => m
                              | FetchResponse _ _ => "Prediction failed"
                              end)) (handlePredict_call s)).
Proof. intros H. unfold handlePredict. now apply handlePredict_settle_failed. Qed.

(** C2: when the fetch to [/predict] fails (network error or non-success
    HTTP status), [predictions] is left as it was before the call, [error]
    is set to a non-empty message, which is displayed, and [loading] is
    [false] when the call completes.  The message of a network error is
    the one the runtime gives to the rejection, taken to be non-empty; the
    failure leaves [predictions] alone in whatever state it arrives. *)
Theorem handlePredict_failure (now : string) (r : FetchResult PredictData)
  (s : App) :
  fetch_failed r = true ->
  (forall m, r = FetchRejected m -> m <> "") ->
  predictions (handlePredict now r s) = predictions s /\
  (exists message,
      error (handlePredict now r s) = Some message /\ message <> "" /\
      displayed_error (handlePredict now r s) = Some message) /\
  loading (handlePredict now r s) = false /\
  (forall domain0 formData0 s',
      predictions (handlePredict_settle domain0 formData0 now r s') =
      predictions s').
Proof.
  intros Hfail Hmsg. rewrite (handlePredict_failed now r s Hfail).
  repeat split.
  - destruct r as [m | ok body]; simpl.
    + exists m. split; [reflexivity |]. split; [now apply Hmsg |].
      unfold displayed_error. simpl.
      destruct (String.eqb_spec m "") as [E | _]; [ | reflexivity].
      now elim (Hmsg m eq_refl).
    + exists "Prediction failed". split; [reflexivity |].
      split; [discriminate | reflexivity].
  - intros domain0 formData0 s'.
    now rewrite handlePredict_settle_failed.
Qed.

Lemma handlePredict_failure_witness :
  predictions (handlePredict "10:15:00" (FetchRejected "Failed to fetch") initialApp)
  = predictions initialApp /\
  (exists message,
      error (handlePredict "10:15:00" (FetchRejected "Failed to fetch") initialApp)
      = Some message /\ message <> "" /\
      displayed_error
        (handlePredict "10:15:00" (FetchRejected "Failed to fetch") initialApp)
      = Some message) /\
  loading (handlePredict "10:15:00" (FetchRejected "Failed to fetch") initialApp)
  = false /\
  (forall domain0 formData0 s',
      predictions (handlePredict_settle domain0 formData0 "10:15:00"
                     (FetchRejected "Failed to fetch") s') =
      predictions s').
Proof.
  apply (handlePredict_failure "10:15:00" (FetchRejected "Failed to fetch")
           initialApp).
  - reflexivity.
  - intros m H. injection H as <-. discriminate.
Defined.

Lemma history_at_most_10_witness :
  let s := run (repeat (PredictSettled transport initialFormData "10:15:00"
                          (FetchResponse true (BodyJson (mkPredictData [] ""))))
                  10)
               initialApp in
  (List.length (history s) <= 10)%nat /\
  forall now data,
    let entry := {| timestamp := now; h_domain := domain s;
                    input := match domain s with
                             | transport => distance_km (formData s)
                             | energy => kwh (formData s)
                             end;
                    bayesian := bayesian_mean data |} in
    let s' := handlePredict now (FetchResponse true (BodyJson data)) s in
    (exists dropped, (history s ++ [entry])%list = (dropped ++ history s')%list) /\
    List.length (history s') = Nat.min 10 (List.length (history s) + 1) /\
    (List.length (history s') <= 10)%nat.
Proof.
  apply (history_at_most_10
           (run (repeat (PredictSettled transport initialFormData "10:15:00"
                           (FetchResponse true (BodyJson (mkPredictData [] ""))))
                   10)
                initialApp)).
  apply reachable_run. apply reachable_initial.
Defined.

(** *** Search failures *)

Lemma searchLocation_settle_failed type r s :
  fetch_failed r = true ->
  searchLocation_settle type r s =
  match r with
  | FetchRejected _ => setLocationSearch (with_searching type false) s
  | FetchResponse _ _ => s
  end.
Proof.
  destruct r as [m | [|] body]; simpl; intros H; try discriminate;
    unfold searchLocation_settle; run_block; reflexivity.
Qed.

Lemma suggestions_with_searching t type v p :
  suggestions t (with_searching type v p) = suggestions t p.
Proof. destruct t, type; reflexivity. Qed.

(** A failure that arrives in any state leaves the error and both
    suggestion lists alone. *)
Lemma searchLocation_settle_failure type r s :
  fetch_failed r = true ->
  error (searchLocation_settle type r s) = error s /\
  forall t, suggestions t (locationSearch (searchLocation_settle type r s)) =
            suggestions t (locationSearch s).
Proof.
  intros Hfail. rewrite (searchLocation_settle_failed type r s Hfail).
  destruct r; simpl; split; try reflexivity.
  intros t. apply suggestions_with_searching.
Qed.

(** C5, as amended: when a forward-geocoding request fails (network
    error or non-success HTTP status), no error is raised ([error], and
    with it the error shown, is left as it was) and both suggestion lists
    are left as they were before the request; a list is then empty only if
    it was empty already. *)
Theorem searchLocation_failure (query : string) (type : LocType)
  (r : FetchResult (list Nominatim.Suggestion)) (s : App) :
  (3 <= String.length query)%nat ->
  fetch_failed r = true ->
  error (searchLocation query type r s) = error s /\
  displayed_error (searchLocation query type r s) = displayed_error s /\
  startSuggestions (locationSearch (searchLocation query type r s)) =
  startSuggestions (locationSearch s) /\
  endSuggestions (locationSearch (searchLocation query type r s)) =
  endSuggestions (locationSearch s).
Proof.
  intros Hlen Hfail.
  unfold searchLocation, searchLocation_call.
  destruct (Nat.ltb_spec (String.length query) 3) as [Hlt | _]; [lia |].
  destruct (searchLocation_settle_failure type r
              (setLocationSearch (with_searching type true) s) Hfail)
    as [Herr Hsug].
  split; [exact Herr |]. split.
  - unfold displayed_error. now rewrite Herr.
  - split.
    + pose proof (Hsug at_start) as H. simpl in H. rewrite H.
      apply (suggestions_with_searching at_start).
    + pose proof (Hsug at_end) as H. simpl in H. rewrite H.
      apply (suggestions_with_searching at_end).
Qed.

Lemma searchLocation_failure_witness :
  error (searchLocation "London" at_start (FetchRejected "Failed to fetch")
           initialApp) = error initialApp /\
  displayed_error (searchLocation "London" at_start
                     (FetchRejected "Failed to fetch") initialApp) =
  displayed_error initialApp /\
  startSuggestions (locationSearch
    (searchLocation "London" at_start (FetchRejected "Failed to fetch")
       initialApp)) = startSuggestions (locationSearch initialApp) /\
  endSuggestions (locationSearch
    (searchLocation "London" at_start (FetchRejected "Failed to fetch")
       initialApp)) = endSuggestions (locationSearch initialApp).
Proof.
  apply (searchLocation_failure "London" at_start
           (FetchRejected "Failed to fetch") initialApp).
  - simpl. lia.
  - reflexivity.
Defined.

(** C5, as stated, fails: after a search that found London, a search
    whose request fails leaves the earlier suggestion in the list. *)
Lemma searchLocation_failure_counterexample :
  let s1 := searchLocation "Lond" at_start
              (FetchResponse true (BodyJson [london])) initialApp in
  let r := @FetchRejected (list Nominatim.Suggestion) "Failed to fetch" in
  reachable s1 /\
  fetch_failed r = true /\
  startSuggestions (locationSearch (searchLocation "Londo" at_start r s1))
  = [london] /\
  startSuggestions (locationSearch (searchLocation "Londo" at_start r s1))
  <> [].
Proof.
  split.
  - apply (reachable_run
             [SearchCalled "Lond" at_start;
              SearchSettled at_start (FetchResponse true (BodyJson [london]))]).
    apply reachable_initial.
  - split; [reflexivity |].
    assert (H : startSuggestions (locationSearch
                  (searchLocation "Londo" at_start (FetchRejected "Failed to fetch")
                     (searchLocation "Lond" at_start
                        (FetchResponse true (BodyJson [london])) initialApp)))
                = [london]) by reflexivity.
    split; [exact H |].
    intros E. pose proof (eq_trans (eq_sym H) E) as C. discriminate C.
Qed.

(** ** The debounced search *)

Section DebounceFacts.
Import Debounce.
Local Open Scope nat_scope.
Local Open Scope list_scope.

(** *** One closure kept across the changes *)

Lemma one_pending_first ch :
  one_pending (change_args ch) (type_in_kept (debounce 500, initialPage) ch).
Proof.
  destruct ch as [[dt value] type]. unfold one_pending; simpl.
  repeat split. exists 1. split; reflexivity.
Qed.

Lemma one_pending_next a st ch :
  one_pending a st -> fst (fst ch) < 500 ->
  one_pending (change_args ch) (type_in_kept st ch).
Proof.
  destruct st as [d p]. destruct ch as [[dt value] type].
  intros (Hw & Hc & id & Ht & Hp) Hdt. simpl in *.
  unfold one_pending, invoke, elapse; simpl.
  rewrite Ht, Hp, Hc, Hw. simpl.
  destruct (Nat.leb_spec (clock p + 500) (clock p + dt)) as [Hle | Hgt]; [lia |].
  simpl. rewrite Nat.eqb_refl. simpl.
  repeat split. eexists. split; reflexivity.
Qed.

Lemma one_pending_fold later : forall a st,
  one_pending a st ->
  Forall (fun ch => fst (fst ch) < 500) later ->
  one_pending (last (map change_args later) a) (fold_left type_in_kept later st).
Proof.
  induction later as [| ch later IH]; intros a st Hst Hgaps.
  - exact Hst.
  - inversion Hgaps as [| ? ? Hch Hlater]; subst.
    cbn [fold_left].
    replace (last (map change_args (ch :: later)) a)
      with (last (map change_args later) (change_args ch)).
    + apply IH; [ | exact Hlater]. now apply one_pending_next with a.
    + cbn [map]. destruct (map change_args later) eqn:E; [reflexivity |].
      symmetry. change (last (change_args ch :: p :: l) a)
                  with (last (p :: l) a).
      clear. revert p. induction l; intros p; [reflexivity |].
      cbn [last]. cbn [last] in IHl. apply IHl.
Qed.

Lemma one_pending_fires a st rest :
  one_pending a st -> 500 <= rest ->
  calls (elapse rest (snd st)) = [a] /\ pending (elapse rest (snd st)) = [].
Proof.
  destruct st as [d p]. intros (Hw & Hc & id & Ht & Hp) Hrest. simpl in *.
  unfold elapse; simpl. rewrite Hp, Hc. simpl.
  destruct (Nat.leb_spec (clock p + 500) (clock p + rest)) as [Hle | Hgt]; [ | lia].
  split; reflexivity.
Qed.

(** [debounce] itself: through one kept closure, rapid changes lead to
    one call, with the arguments of the last change. *)
Lemma debounce_kept_one_call (first : Change) (later : list Change) (rest : nat) :
  rapid 500 (first :: later) -> 500 <= rest ->
  calls (session_kept (first :: later) rest)
  = [last (map change_args later) (change_args first)].
Proof.
  intros Hrapid Hrest. unfold session_kept. cbn [fold_left].
  apply one_pending_fires; [ | exact Hrest].
  apply one_pending_fold; [apply one_pending_first | exact Hrapid].
Qed.

(** *** The closure of the component, made anew by every render *)

Lemma filter_none {A : Type} (f : A -> bool) (l : list A) :
  Forall (fun x => f x = false) l -> filter f l = [].
Proof.
  induction 1 as [| x l Hx _ IH]; simpl; [reflexivity |].
  now rewrite Hx.
Qed.

Lemma filter_all {A : Type} (f : A -> bool) (l : list A) :
  Forall (fun x => f x = true) l -> filter f l = l.
Proof.
  induction 1 as [| x l Hx _ IH]; simpl; [reflexivity |].
  now rewrite Hx, IH.
Qed.

Lemma due_split (t : nat) (l : list Timer) :
  StronglySorted due_order l ->
  filter (fun x => due x <=? t) l ++ filter (fun x => negb (due x <=? t)) l = l.
Proof.
  induction 1 as [| h l _ IH Hh]; simpl; [reflexivity |].
  destruct (Nat.leb_spec (due h) t) as [Hle | Hgt]; simpl.
  - now rewrite IH.
  - assert (Hnone : filter (fun x => due x <=? t) l = []).
    { apply filter_none. eapply Forall_impl; [ | exact Hh].
      unfold due_order. intros u Hu. apply Nat.leb_gt. lia. }
    rewrite Hnone in *. simpl in *. now rewrite IH.
Qed.

Lemma StronglySorted_filter {A : Type} (R : A -> A -> Prop) (f : A -> bool)
  (l : list A) :
  StronglySorted R l -> StronglySorted R (filter f l).
Proof.
  induction 1 as [| h l _ IH Hh]; simpl; [constructor |].
  destruct (f h); [ | exact IH].
  constructor; [exact IH |].
  apply Forall_forall. intros x Hx. apply filter_In in Hx as [Hx _].
  revert x Hx. now apply Forall_forall.
Qed.

Lemma StronglySorted_snoc (l : list Timer) (t : Timer) :
  StronglySorted due_order l -> Forall (fun u => due u <= due t) l ->
  StronglySorted due_order (l ++ [t]).
Proof.
  induction 1 as [| h l _ IH Hh]; intros Hall; simpl.
  - constructor; constructor.
  - inversion Hall as [| ? ? Hht Hrest]; subst.
    constructor; [now apply IH |].
    apply Forall_app. split; [exact Hh | constructor; [exact Hht | constructor]].
Qed.

Lemma all_pending_next sent st ch :
  all_pending sent st ->
  all_pending (sent ++ [change_args ch]) (type_in st ch).
Proof.
  destruct st as [d p]. destruct ch as [[dt value] type].
  intros (Hd & Hsent & Hsorted & Hdue). simpl in *. subst d.
  unfold all_pending, type_in, onChange, invoke, elapse; simpl.
  split; [reflexivity |]. split; [ | split].
  - rewrite map_app, <- app_assoc, (app_assoc (map args _)), <- map_app.
    rewrite (due_split _ _ Hsorted). simpl.
    now rewrite app_assoc, Hsent.
  - apply StronglySorted_snoc; [now apply StronglySorted_filter |].
    apply Forall_forall. intros u Hu. apply filter_In in Hu as [Hu _]. simpl.
    rewrite Forall_forall in Hdue. specialize (Hdue u Hu). lia.
  - apply Forall_app. split.
    + apply Forall_forall. intros u Hu. apply filter_In in Hu as [Hu _].
      rewrite Forall_forall in Hdue. specialize (Hdue u Hu). lia.
    + constructor; [simpl; lia | constructor].
Qed.

Lemma all_pending_fold chs : forall sent st,
  all_pending sent st ->
  all_pending (sent ++ map change_args chs) (fold_left type_in chs st).
Proof.
  induction chs as [| ch chs IH]; intros sent st Hst; simpl.
  - now rewrite app_nil_r.
  - replace (sent ++ change_args ch :: map change_args chs)
      with ((sent ++ [change_args ch]) ++ map change_args chs)
      by (now rewrite <- app_assoc).
    apply IH. now apply all_pending_next.
Qed.

(** In the component every change of a search input reaches
    [searchLocation], whatever the pace of the changes. *)
Lemma debouncedSearch_calls_every_change (chs : list Change) (rest : nat) :
  500 <= rest -> calls (session chs rest) = map change_args chs.
Proof.
  intros Hrest. unfold session.
  assert (H0 : all_pending [] (render, initialPage)).
  { repeat split; simpl; constructor. }
  destruct (all_pending_fold chs [] _ H0) as (_ & Hsent & _ & Hdue).
  simpl in Hsent. unfold elapse; simpl.
  rewrite filter_all.
  - exact Hsent.
  - eapply Forall_impl; [ | exact Hdue].
    intros u Hu. apply Nat.leb_le. simpl in Hu. lia.
Qed.

(** C3, on the code: two changes of the start field 100 ms apart, "Lon"
    and then "Lond", lead to two geocoding requests, one for each, because
    the render between them replaces [debouncedSearch] by a new closure
    whose [timeout] is unset, so the pending timer is not superseded. *)
Theorem debouncedSearch_two_requests :
  rapid 500 [(0, "Lon", at_start); (100, "Lond", at_start)] /\
  geocoding_requests
    (session [(0, "Lon", at_start); (100, "Lond", at_start)] 500)
  = [("Lon", at_start); ("Lond", at_start)] /\
  geocoding_requests
    (session_kept [(0, "Lon", at_start); (100, "Lond", at_start)] 500)
  = [("Lond", at_start)].
Proof.
  split; [ | split].
  - simpl. constructor; [simpl; lia | constructor].
  - vm_compute. reflexivity.
  - vm_compute. reflexivity.
Qed.

End DebounceFacts.

(** * Further properties of the handlers *)

Local Open Scope list_scope.

(** ** Further properties of the distance *)






Lemma a_lat_mirror (lat1 lon1 lat2 lon2 : R) :
  a (- lat1) lon1 (- lat2) lon2 = a lat1 lon1 lat2 lon2.
Proof.
  unfold a, dLat.
  replace ((- lat2 - - lat1) * PI / 180 / 2)
    with (- ((lat2 - lat1) * PI / 180 / 2)) by field.
  replace (- lat1 * PI / 180) with (- (lat1 * PI / 180)) by field.
  replace (- lat2 * PI / 180) with (- (lat2 * PI / 180)) by field.
  rewrite sin_neg, !cos_neg. ring.
Qed.

Lemma a_lon_mirror (lat1 lon1 lat2 lon2 : R) :
  a lat1 (- lon1) lat2 (- lon2) = a lat1 lon1 lat2 lon2.
Proof.
  unfold a, dLon.
  replace ((- lon2 - - lon1) * PI / 180 / 2)
    with (- ((lon2 - lon1) * PI / 180 / 2)) by field.
  rewrite sin_neg. ring.
Qed.

(** X6: the distance is unchanged by the reflection in the equator (both
    latitudes negated) and by the reflection in the prime meridian (both
    longitudes negated). *)
Theorem distance_invariances (lat1 lon1 lat2 lon2 : R) :
  distance (- lat1) lon1 (- lat2) lon2 = distance lat1 lon1 lat2 lon2 /\
  distance lat1 (- lon1) lat2 (- lon2) = distance lat1 lon1 lat2 lon2.
Proof.
  unfold distance, c.
  rewrite a_lat_mirror, a_lon_mirror. split; reflexivity.
Qed.

(** ** Further properties of the route handlers *)

(** X8: choosing a suggestion sets the coordinates and the name of that
    end, and the text of its search field, exactly from the entry, empties
    its suggestion list, and leaves the coordinates, name, text and
    suggestions of the other end as they were. *)
Theorem handleLocationSelect_populates (location : Nominatim.Suggestion)
  (type : LocType) (s : App) :
  let s' := handleLocationSelect location type s in
  coord_lat type (formData s') = Some (Nominatim.lat location) /\
  coord_lon type (formData s') = Some (Nominatim.lon location) /\
  location_name type (formData s') = Nominatim.display_name location /\
  search_text type (locationSearch s') = Nominatim.display_name location /\
  suggestions type (locationSearch s') = [] /\
  coord_lat (other type) (formData s') = coord_lat (other type) (formData s) /\
  coord_lon (other type) (formData s') = coord_lon (other type) (formData s) /\
  location_name (other type) (formData s') =
  location_name (other type) (formData s) /\
  search_text (other type) (locationSearch s') =
  search_text (other type) (locationSearch s) /\
  suggestions (other type) (locationSearch s') =
  suggestions (other type) (locationSearch s).
Proof.
  destruct type; unfold handleLocationSelect; simpl.
  - destruct (truthy (end_lat (formData s)) && truthy (end_lon (formData s)));
      simpl; repeat split.
  - destruct (truthy (start_lat (formData s)) && truthy (start_lon (formData s)));
      simpl; repeat split.
Qed.

(** X9: clearing an end unsets its coordinates, empties its name, its
    search text and its suggestions, leaves the other end and [distance_km]
    as they were, and clearing again changes nothing. *)
Theorem clearLocation_resets_one_end (type : LocType) (s : App) :
  let s' := clearLocation type s in
  coord_lat type (formData s') = None /\
  coord_lon type (formData s') = None /\
  location_name type (formData s') = "" /\
  search_text type (locationSearch s') = "" /\
  suggestions type (locationSearch s') = [] /\
  coord_lat (other type) (formData s') = coord_lat (other type) (formData s) /\
  coord_lon (other type) (formData s') = coord_lon (other type) (formData s) /\
  location_name (other type) (formData s') =
  location_name (other type) (formData s) /\
  search_text (other type) (locationSearch s') =
  search_text (other type) (locationSearch s) /\
  suggestions (other type) (locationSearch s') =
  suggestions (other type) (locationSearch s) /\
  distance_km (formData s') = distance_km (formData s) /\
  clearLocation type s' = s'.
Proof.
  destruct type; simpl; repeat split.
Qed.

(** X10: when the other end is not set, choosing a suggestion and then
    clearing that end gives the state that clearing alone gives. *)
Theorem select_then_clear (location : Nominatim.Suggestion) (type : LocType)
  (s : App) :
  truthy (coord_lat (other type) (formData s)) &&
  truthy (coord_lon (other type) (formData s)) = false ->
  clearLocation type (handleLocationSelect location type s) =
  clearLocation type s.
Proof.
  destruct type; simpl; intros H; unfold handleLocationSelect; rewrite H;
    reflexivity.
Qed.

Lemma select_then_clear_witness :
  clearLocation at_start (handleLocationSelect paris at_start initialApp) =
  clearLocation at_start initialApp.
Proof.
  apply (select_then_clear paris at_start initialApp). reflexivity.
Defined.

(** When the reverse lookup settles, the coordinates and the map mode stay
    as the call left them. *)
(** X12: a marker placed while the reverse lookup fails (rejected,
    non-success status or unreadable body) sets the coordinates of its end
    and leaves the name of that end, the text of its search field and
    [error] as they were. *)
Theorem marker_lookup_failure_keeps_name (lat lng : R)
  (r : FetchResult Nominatim.Place) (s : App) :
  (forall data, r <> FetchResponse true (BodyJson data)) ->
  (start_lat (formData (setStartMarker lat lng r s)) = Some lat /\
   start_lon (formData (setStartMarker lat lng r s)) = Some lng /\
   start_location_name (formData (setStartMarker lat lng r s)) =
   start_location_name (formData s) /\
   ls_start (locationSearch (setStartMarker lat lng r s)) =
   ls_start (locationSearch s) /\
   error (setStartMarker lat lng r s) = error s) /\
  (end_lat (formData (setEndMarker lat lng r s)) = Some lat /\
   end_lon (formData (setEndMarker lat lng r s)) = Some lng /\
   end_location_name (formData (setEndMarker lat lng r s)) =
   end_location_name (formData s) /\
   ls_end (locationSearch (setEndMarker lat lng r s)) =
   ls_end (locationSearch s) /\
   error (setEndMarker lat lng r s) = error s).
Proof.
  intros Hr.
  unfold setStartMarker, setStartMarker_settle, setStartMarker_call,
    setEndMarker, setEndMarker_settle, setEndMarker_call.
  destruct (truthy (end_lat (formData s)) && truthy (end_lon (formData s)));
    destruct (truthy (start_lat (formData s)) && truthy (start_lon (formData s)));
    destruct r as [m | [|] [m | data]];
    try (now elim (Hr data)); run_block; repeat split.
Qed.

Lemma marker_lookup_failure_keeps_name_witness :
  (start_lat (formData (setStartMarker 48.8566 2.3522
                          (FetchRejected "Failed to fetch") initialApp))
   = Some 48.8566 /\
   start_lon (formData (setStartMarker 48.8566 2.3522
                          (FetchRejected "Failed to fetch") initialApp))
   = Some 2.3522 /\
   start_location_name (formData (setStartMarker 48.8566 2.3522
                          (FetchRejected "Failed to fetch") initialApp)) =
   start_location_name (formData initialApp) /\
   ls_start (locationSearch (setStartMarker 48.8566 2.3522
                          (FetchRejected "Failed to fetch") initialApp)) =
   ls_start (locationSearch initialApp) /\
   error (setStartMarker 48.8566 2.3522
            (FetchRejected "Failed to fetch") initialApp) = error initialApp) /\
  (end_lat (formData (setEndMarker 48.8566 2.3522
                        (FetchRejected "Failed to fetch") initialApp))
   = Some 48.8566 /\
   end_lon (formData (setEndMarker 48.8566 2.3522
                        (FetchRejected "Failed to fetch") initialApp))
   = Some 2.3522 /\
   end_location_name (formData (setEndMarker 48.8566 2.3522
                        (FetchRejected "Failed to fetch") initialApp)) =
   end_location_name (formData initialApp) /\
   ls_end (locationSearch (setEndMarker 48.8566 2.3522
                        (FetchRejected "Failed to fetch") initialApp)) =
   ls_end (locationSearch initialApp) /\
   error (setEndMarker 48.8566 2.3522
            (FetchRejected "Failed to fetch") initialApp) = error initialApp).
Proof.
  apply (marker_lookup_failure_keeps_name 48.8566 2.3522
           (FetchRejected "Failed to fetch") initialApp).
  intros data H. discriminate H.
Defined.

(** X13: a marker placed with a reverse lookup that succeeds sets the
    coordinates of its end, and sets the name of that end and the text of
    its search field to the [display_name] found; the suggestions stay. *)
Theorem marker_lookup_names_place (lat lng : R) (data : Nominatim.Place)
  (s : App) :
  (start_lat (formData (setStartMarker lat lng (FetchResponse true (BodyJson data)) s))
   = Some lat /\
   start_lon (formData (setStartMarker lat lng (FetchResponse true (BodyJson data)) s))
   = Some lng /\
   start_location_name
     (formData (setStartMarker lat lng (FetchResponse true (BodyJson data)) s))
   = Nominatim.place_display_name data /\
   ls_start
     (locationSearch (setStartMarker lat lng (FetchResponse true (BodyJson data)) s))
   = Nominatim.place_display_name data /\
   startSuggestions
     (locationSearch (setStartMarker lat lng (FetchResponse true (BodyJson data)) s))
   = startSuggestions (locationSearch s)) /\
  (end_lat (formData (setEndMarker lat lng (FetchResponse true (BodyJson data)) s))
   = Some lat /\
   end_lon (formData (setEndMarker lat lng (FetchResponse true (BodyJson data)) s))
   = Some lng /\
   end_location_name
     (formData (setEndMarker lat lng (FetchResponse true (BodyJson data)) s))
   = Nominatim.place_display_name data /\
   ls_end
     (locationSearch (setEndMarker lat lng (FetchResponse true (BodyJson data)) s))
   = Nominatim.place_display_name data /\
   endSuggestions
     (locationSearch (setEndMarker lat lng (FetchResponse true (BodyJson data)) s))
   = endSuggestions (locationSearch s)).
Proof.
  unfold setStartMarker, setStartMarker_settle, setStartMarker_call,
    setEndMarker, setEndMarker_settle, setEndMarker_call.
  destruct (truthy (end_lat (formData s)) && truthy (end_lon (formData s)));
    destruct (truthy (start_lat (formData s)) && truthy (start_lon (formData s)));
    run_block; repeat split.
Qed.

(** X14: after the map is opened for the start, two clicks place the
    route, in whatever order the reverse lookups settle and whatever their
    outcome: the first click sets the start and turns the mode to the end,
    the second sets the end.  With non-zero coordinates a distance is
    displayed: the distance between the two clicks, unless an end was set
    before and the lookup of the first click settles last; then it is the
    distance from the first click to that earlier end. *)
Theorem two_clicks_place_route (schedule : Schedule) (lat1 lng1 lat2 lng2 : R)
  (r1 r2 : FetchResult Nominatim.Place) (s : App) :
  lat1 <> 0 -> lng1 <> 0 -> lat2 <> 0 ->
  let s2 := two_clicks schedule lat1 lng1 r1 lat2 lng2 r2
              (openMapForLocation at_start s) in
  showMap s2 = true /\
  mapMode s2 = Some at_end /\
  start_lat (formData s2) = Some lat1 /\
  start_lon (formData s2) = Some lng1 /\
  end_lat (formData s2) = Some lat2 /\
  end_lon (formData s2) = Some lng2 /\
  (schedule <> first_settles_last \/
   truthy (end_lat (formData s)) && truthy (end_lon (formData s)) = false ->
   displayed_distance s2 = Some (toFixed 2 (distance lat1 lng1 lat2 lng2))) /\
  (schedule = first_settles_last ->
   truthy (end_lat (formData s)) && truthy (end_lon (formData s)) = true ->
   displayed_distance s2 =
   Some (toFixed 2 (distance lat1 lng1 (toNumber (end_lat (formData s)))
                      (toNumber (end_lon (formData s)))))).
Proof.
  intros H1 H2 H3.
  pose proof (truthy_nonzero _ H1) as T1.
  pose proof (truthy_nonzero _ H2) as T2.
  pose proof (truthy_nonzero _ H3) as T3.
  unfold two_clicks, openMapForLocation, handleClick_call, handleClick_settle,
    displayed_distance, setStartMarker_settle, setEndMarker_settle.
  simpl. rewrite T1, T2. simpl.
  destruct (truthy (end_lat (formData s)) && truthy (end_lon (formData s)));
    destruct schedule;
    destruct r1 as [m1 | [|] [m1 | data1]];
    destruct r2 as [m2 | [|] [m2 | data2]];
    run_block; rewrite ?T1, ?T3; simpl;
    repeat split; try reflexivity;
    try (intros [E | E]; [now elim E | discriminate E]);
    try (intros E; discriminate E);
    try (intros _ E; discriminate E).
Qed.

Lemma two_clicks_place_route_witness :
  let s := setFormData (with_end_coords (Some 40.4168) (Some (-3.7038)))
             initialApp in
  let s2 := two_clicks first_settles_last
              51.5074 (-0.1278) (FetchRejected "Failed to fetch")
              48.8566 2.3522 (FetchRejected "Failed to fetch")
              (openMapForLocation at_start s) in
  showMap s2 = true /\
  mapMode s2 = Some at_end /\
  start_lat (formData s2) = Some 51.5074 /\
  start_lon (formData s2) = Some (-0.1278) /\
  end_lat (formData s2) = Some 48.8566 /\
  end_lon (formData s2) = Some 2.3522 /\
  (first_settles_last <> first_settles_last \/
   truthy (end_lat (formData s)) && truthy (end_lon (formData s)) = false ->
   displayed_distance s2 =
   Some (toFixed 2 (distance 51.5074 (-0.1278) 48.8566 2.3522))) /\
  (first_settles_last = first_settles_last ->
   truthy (end_lat (formData s)) && truthy (end_lon (formData s)) = true ->
   displayed_distance s2 =
   Some (toFixed 2 (distance 51.5074 (-0.1278)
                      (toNumber (end_lat (formData s)))
                      (toNumber (end_lon (formData s)))))).
Proof.
  apply (two_clicks_place_route first_settles_last
           51.5074 (-0.1278) 48.8566 2.3522
           (FetchRejected "Failed to fetch") (FetchRejected "Failed to fetch")
           (setFormData (with_end_coords (Some 40.4168) (Some (-3.7038)))
              initialApp)); lra.
Defined.

(** X11: with non-zero coordinates, choosing the start and choosing the
    end commute: both orders give the same state, in which the distance
    between the two places is displayed. *)
Theorem select_start_and_end_commute (from to : Nominatim.Suggestion) (s : App) :
  Nominatim.lat from <> 0 -> Nominatim.lon from <> 0 ->
  Nominatim.lat to <> 0 -> Nominatim.lon to <> 0 ->
  handleLocationSelect to at_end (handleLocationSelect from at_start s) =
  handleLocationSelect from at_start (handleLocationSelect to at_end s) /\
  displayed_distance
    (handleLocationSelect to at_end (handleLocationSelect from at_start s)) =
  Some (toFixed 2 (distance (Nominatim.lat from) (Nominatim.lon from)
                     (Nominatim.lat to) (Nominatim.lon to))).
Proof.
  intros F1 F2 T1 T2.
  assert (E : handleLocationSelect to at_end (handleLocationSelect from at_start s) =
              handleLocationSelect from at_start (handleLocationSelect to at_end s)).
  { unfold handleLocationSelect.
    destruct (truthy (end_lat (formData s)) && truthy (end_lon (formData s)));
      destruct (truthy (start_lat (formData s)) && truthy (start_lon (formData s)));
      simpl;
      rewrite (truthy_nonzero _ F1), (truthy_nonzero _ F2),
        (truthy_nonzero _ T1), (truthy_nonzero _ T2); reflexivity. }
  split; [exact E |].
  apply (select_end_recomputes to (handleLocationSelect from at_start s)
           (Nominatim.lat from) (Nominatim.lon from)); try assumption.
  - unfold handleLocationSelect.
    destruct (truthy (end_lat (formData s)) && truthy (end_lon (formData s)));
      reflexivity.
  - unfold handleLocationSelect.
    destruct (truthy (end_lat (formData s)) && truthy (end_lon (formData s)));
      reflexivity.
Qed.

Lemma select_start_and_end_commute_witness :
  handleLocationSelect paris at_end (handleLocationSelect london at_start initialApp) =
  handleLocationSelect london at_start (handleLocationSelect paris at_end initialApp) /\
  displayed_distance
    (handleLocationSelect paris at_end
       (handleLocationSelect london at_start initialApp)) =
  Some (toFixed 2 (distance (Nominatim.lat london) (Nominatim.lon london)
                     (Nominatim.lat paris) (Nominatim.lon paris))).
Proof.
  apply (select_start_and_end_commute london paris initialApp); simpl; lra.
Defined.

(** ** Further properties of the requests *)

Lemma slice_last_snoc_small {A : Type} (n : nat) (l : list A) (x : A) :
  (List.length l < n)%nat -> slice_last n (l ++ [x]) = l ++ [x].
Proof.
  intros H. unfold slice_last. rewrite length_app. simpl.
  replace (List.length l + 1 - n)%nat with 0%nat by lia. reflexivity.
Qed.

Lemma slice_last_snoc_full {A : Type} (n : nat) (l : list A) (x : A) :
  (0 < n)%nat -> List.length l = n -> slice_last n (l ++ [x]) = tl l ++ [x].
Proof.
  intros Hn H. unfold slice_last. rewrite length_app. simpl.
  replace (List.length l + 1 - n)%nat with 1%nat by lia.
  destruct l as [| y l]; [simpl in H; lia | reflexivity].
Qed.

Lemma slice_last_snoc_last {A : Type} (n : nat) (l : list A) (x d : A) :
  (0 < n)%nat -> last (slice_last n (l ++ [x])) d = x.
Proof.
  intros Hn. unfold slice_last. rewrite length_app. simpl.
  destruct (Nat.le_gt_cases (List.length l + 1 - n) (List.length l)) as [H | H];
    [ | lia].
  rewrite skipn_app.
  replace (List.length l + 1 - n - List.length l)%nat with 0%nat by lia.
  simpl. apply last_last.
Qed.


(** X15: after a successful prediction [predictions] holds the answer,
    no error is set or shown, [loading] is [false], and the last entry of
    the history has the time, the domain and input of the call, and the
    mean of the model [bayesian], or [0] when the answer has none. *)
Theorem handlePredict_success (now : string) (data : PredictData) (s : App) :
  let s' := handlePredict now (FetchResponse true (BodyJson data)) s in
  predictions s' = Some data /\
  error s' = None /\ displayed_error s' = None /\
  loading s' = false /\
  forall d,
    last (history s') d =
    {| timestamp := now; h_domain := domain s;
       input := match domain s with
                | transport => distance_km (formData s)
                | energy => kwh (formData s)
                end;
       bayesian := match member "bayesian" (pd_predictions data) with
                   | Some p => match mean p with Some v => v | None => 0 end
                   | None => 0
                   end |}.
Proof.
  unfold handlePredict. rewrite handlePredict_settle_ok. simpl.
  repeat split. intros d. apply slice_last_snoc_last. lia.
Qed.

(** X16: in a reachable state a successful prediction appends its entry
    to a history of fewer than 10 entries, and replaces the oldest entry of
    a history of 10; there is no other case. *)
Theorem history_window (now : string) (data : PredictData) (s : App) :
  reachable s ->
  let entry := {| timestamp := now; h_domain := domain s;
                  input := match domain s with
                           | transport => distance_km (formData s)
                           | energy => kwh (formData s)
                           end;
                  bayesian := bayesian_mean data |} in
  let s' := handlePredict now (FetchResponse true (BodyJson data)) s in
  ((List.length (history s) < 10)%nat -> history s' = history s ++ [entry]) /\
  (List.length (history s) = 10%nat -> history s' = tl (history s) ++ [entry]) /\
  ((List.length (history s) < 10)%nat \/ List.length (history s) = 10%nat).
Proof.
  intros Hs. cbv zeta. unfold handlePredict. rewrite handlePredict_settle_ok.
  simpl.
  split; [ | split].
  - intros H. now apply slice_last_snoc_small.
  - intros H. apply slice_last_snoc_full; [lia | exact H].
  - assert (List.length (history s) <= 10)%nat; [ | lia].
    clear now data. induction Hs as [| e s Hs IH]; [simpl; lia |].
    destruct (history_step e s) as [-> | [entry ->]];
      [exact IH | apply slice_last_length].
Qed.

Lemma history_window_witness :
  let s := initialApp in
  let data := mkPredictData [] "" in
  let entry := {| timestamp := "10:15:00"; h_domain := domain s;
                  input := match domain s with
                           | transport => distance_km (formData s)
                           | energy => kwh (formData s)
                           end;
                  bayesian := bayesian_mean data |} in
  let s' := handlePredict "10:15:00" (FetchResponse true (BodyJson data)) s in
  ((List.length (history s) < 10)%nat -> history s' = history s ++ [entry]) /\
  (List.length (history s) = 10%nat -> history s' = tl (history s) ++ [entry]) /\
  ((List.length (history s) < 10)%nat \/ List.length (history s) = 10%nat).
Proof.
  apply (history_window "10:15:00" (mkPredictData [] "") initialApp).
  apply reachable_initial.
Defined.

(** X17: when [/predict] answers with success but its body is not
    readable JSON, [predictions] and the history are left as they were,
    [error] is the message of the parse error and [loading] is [false]. *)
Theorem handlePredict_invalid_body (now message : string) (s : App) :
  let s' := handlePredict now (FetchResponse true (BodyError message)) s in
  predictions s' = predictions s /\
  history s' = history s /\
  error s' = Some message /\
  loading s' = false.
Proof.
  unfold handlePredict, handlePredict_settle. run_block. repeat split.
Qed.

(** X18: when the fetch to [/optimize] fails (network error or
    non-success status), [optimization] is left as it was, [error] is the
    message of the failure, [loadingOptimization] is [false], and
    [predictions], the history and [loading] are not touched. *)
Theorem handleOptimize_failure (r : FetchResult string) (s : App) :
  fetch_failed r = true ->
  let s' := handleOptimize r s in
  optimization s' = optimization s /\
  error s' = Some (match r with
                   | FetchRejected message => message
                   | FetchResponse _ _ => "Optimization failed"
                   end) /\
  loadingOptimization s' = false /\
  predictions s' = predictions s /\
  history s' = history s /\
  loading s' = loading s.
Proof.
  destruct r as [m | [|] body]; simpl; intros H; try discriminate;
    unfold handleOptimize, handleOptimize_settle; run_block; repeat split.
Qed.

Lemma handleOptimize_failure_witness :
  let r := @FetchResponse string false (BodyJson "") in
  let s' := handleOptimize r initialApp in
  optimization s' = optimization initialApp /\
  error s' = Some "Optimization failed" /\
  loadingOptimization s' = false /\
  predictions s' = predictions initialApp /\
  history s' = history initialApp /\
  loading s' = loading initialApp.
Proof.
  apply (handleOptimize_failure (FetchResponse false (BodyJson "")) initialApp).
  reflexivity.
Defined.



(** *** Searches *)

(** X20: a search with a query of fewer than three characters sends no
    request, empties the suggestions of its end, and leaves the other
    suggestions, the searching flag, the search text, the form and [error]
    as they were. *)
Theorem searchLocation_short_query (query : string) (type : LocType)
  (r : FetchResult (list Nominatim.Suggestion)) (s : App) :
  (String.length query < 3)%nat ->
  snd (searchLocation_call query type s) = false /\
  let s' := searchLocation query type r s in
  suggestions type (locationSearch s') = [] /\
  suggestions (other type) (locationSearch s') =
  suggestions (other type) (locationSearch s) /\
  searching type (locationSearch s') = searching type (locationSearch s) /\
  search_text type (locationSearch s') = search_text type (locationSearch s) /\
  formData s' = formData s /\
  error s' = error s.
Proof.
  intros H. unfold searchLocation, searchLocation_call.
  destruct (Nat.ltb_spec (String.length query) 3) as [_ | Hge]; [ | lia].
  simpl. destruct type; repeat split.
Qed.

Lemma searchLocation_short_query_witness :
  snd (searchLocation_call "Lo" at_start initialApp) = false /\
  let s' := searchLocation "Lo" at_start (FetchRejected "Failed to fetch")
              initialApp in
  suggestions at_start (locationSearch s') = [] /\
  suggestions (other at_start) (locationSearch s') =
  suggestions (other at_start) (locationSearch initialApp) /\
  searching at_start (locationSearch s') =
  searching at_start (locationSearch initialApp) /\
  search_text at_start (locationSearch s') =
  search_text at_start (locationSearch initialApp) /\
  formData s' = formData initialApp /\
  error s' = error initialApp.
Proof.
  apply (searchLocation_short_query "Lo" at_start
           (FetchRejected "Failed to fetch") initialApp).
  simpl. lia.
Defined.

(** X21: a search that succeeds replaces the suggestions of its end by
    the answer and resets its searching flag, and leaves the other end,
    the search text, the form and [error] as they were. *)
Theorem searchLocation_success (query : string) (type : LocType)
  (data : list Nominatim.Suggestion) (s : App) :
  (3 <= String.length query)%nat ->
  let s' := searchLocation query type (FetchResponse true (BodyJson data)) s in
  suggestions type (locationSearch s') = data /\
  searching type (locationSearch s') = false /\
  suggestions (other type) (locationSearch s') =
  suggestions (other type) (locationSearch s) /\
  searching (other type) (locationSearch s') =
  searching (other type) (locationSearch s) /\
  search_text type (locationSearch s') = search_text type (locationSearch s) /\
  formData s' = formData s /\
  error s' = error s.
Proof.
  intros H. unfold searchLocation, searchLocation_call.
  destruct (Nat.ltb_spec (String.length query) 3) as [Hlt | _]; [lia |].
  unfold searchLocation_settle. run_block. destruct type; repeat split.
Qed.

Lemma searchLocation_success_witness :
  let s' := searchLocation "London" at_start
              (FetchResponse true (BodyJson [london])) initialApp in
  suggestions at_start (locationSearch s') = [london] /\
  searching at_start (locationSearch s') = false /\
  suggestions (other at_start) (locationSearch s') =
  suggestions (other at_start) (locationSearch initialApp) /\
  searching (other at_start) (locationSearch s') =
  searching (other at_start) (locationSearch initialApp) /\
  search_text at_start (locationSearch s') =
  search_text at_start (locationSearch initialApp) /\
  formData s' = formData initialApp /\
  error s' = error initialApp.
Proof.
  apply (searchLocation_success "London" at_start [london] initialApp).
  simpl. lia.
Defined.

(** X22: after a search with a query of three characters or more, the
    searching flag of its end is [false], except after an answer with a
    non-success status, which leaves it [true]. *)
Theorem searchLocation_searching_flag (query : string) (type : LocType)
  (r : FetchResult (list Nominatim.Suggestion)) (s : App) :
  (3 <= String.length query)%nat ->
  searching type (locationSearch (searchLocation query type r s)) =
  match r with
  | FetchResponse false _ => true
  | _ => false
  end.
Proof.
  intros H. unfold searchLocation, searchLocation_call.
  destruct (Nat.ltb_spec (String.length query) 3) as [Hlt | _]; [lia |].
  unfold searchLocation_settle.
  destruct r as [m | [|] [m | data]]; run_block; destruct type; reflexivity.
Qed.

Lemma searchLocation_searching_flag_witness :
  searching at_start
    (locationSearch
       (searchLocation "London" at_start (FetchResponse false (BodyJson []))
          initialApp)) = true.
Proof.
  apply (searchLocation_searching_flag "London" at_start
           (FetchResponse false (BodyJson [])) initialApp).
  simpl. lia.
Defined.

Section DebounceMore.
Import Debounce.
Local Open Scope nat_scope.

(** X23: through one kept closure of [debounce], changes less than
    500 ms apart followed by 500 ms of silence lead to exactly one call of
    [searchLocation], with the arguments of the last change; no timer is
    left, and at most one geocoding request is sent. *)
Theorem debounce_supersedes (first : Change) (later : list Change)
  (rest : nat) :
  rapid 500 (first :: later) -> 500 <= rest ->
  calls (session_kept (first :: later) rest)
  = [last (map change_args later) (change_args first)] /\
  pending (session_kept (first :: later) rest) = [] /\
  List.length (geocoding_requests (session_kept (first :: later) rest)) <= 1.
Proof.
  intros Hrapid Hrest.
  assert (H : one_pending (last (map change_args later) (change_args first))
                (fold_left type_in_kept (first :: later)
                   (debounce 500, initialPage))).
  { cbn [fold_left].
    apply one_pending_fold; [apply one_pending_first | exact Hrapid]. }
  destruct (one_pending_fires _ _ rest H Hrest) as [Hc Hp].
  unfold session_kept. split; [exact Hc |]. split; [exact Hp |].
  unfold geocoding_requests. rewrite Hc. simpl.
  destruct (negb _); simpl; lia.
Qed.

Lemma debounce_supersedes_witness :
  calls (session_kept [(0, "Lon", at_start); (100, "Lond", at_start);
                       (120, "Londo", at_start)] 500)
  = [last (map change_args [(100, "Lond", at_start); (120, "Londo", at_start)])
       (change_args (0, "Lon", at_start))] /\
  pending (session_kept [(0, "Lon", at_start); (100, "Lond", at_start);
                         (120, "Londo", at_start)] 500) = [] /\
  List.length
    (geocoding_requests
       (session_kept [(0, "Lon", at_start); (100, "Lond", at_start);
                      (120, "Londo", at_start)] 500)) <= 1.
Proof.
  apply (debounce_supersedes (0, "Lon", at_start)
           [(100, "Lond", at_start); (120, "Londo", at_start)] 500).
  - simpl. repeat (constructor; [simpl; lia |]). constructor.
  - lia.
Defined.

(** X24: through one kept closure, as long as the silence after rapid
    changes is shorter than 500 ms nothing has been called, and the one
    pending timer carries the arguments of the last change. *)
Theorem debounce_waits (first : Change) (later : list Change) (rest : nat) :
  rapid 500 (first :: later) -> rest < 500 ->
  calls (session_kept (first :: later) rest) = [] /\
  map args (pending (session_kept (first :: later) rest))
  = [last (map change_args later) (change_args first)].
Proof.
  intros Hrapid Hrest.
  assert (H : one_pending (last (map change_args later) (change_args first))
                (fold_left type_in_kept (first :: later)
                   (debounce 500, initialPage))).
  { cbn [fold_left].
    apply one_pending_fold; [apply one_pending_first | exact Hrapid]. }
  unfold session_kept.
  destruct (fold_left type_in_kept (first :: later) (debounce 500, initialPage))
    as [d p].
  destruct H as (_ & Hc & id & _ & Hp). simpl in *.
  unfold elapse; simpl. rewrite Hp, Hc. simpl.
  destruct (Nat.leb_spec (clock p + 500) (clock p + rest)) as [Hle | Hgt];
    [lia |].
  split; reflexivity.
Qed.

Lemma debounce_waits_witness :
  calls (session_kept [(0, "Lon", at_start); (100, "Lond", at_start)] 499) = [] /\
  map args (pending (session_kept [(0, "Lon", at_start); (100, "Lond", at_start)]
                       499))
  = [last (map change_args [(100, "Lond", at_start)])
       (change_args (0, "Lon", at_start))].
Proof.
  apply (debounce_waits (0, "Lon", at_start) [(100, "Lond", at_start)] 499).
  - simpl. repeat (constructor; [simpl; lia |]). constructor.
  - lia.
Defined.

(** Changes at least 500 ms apart through one kept closure: the timer of
    each has fired before the next is made. *)
Lemma spaced_next sent a st ch :
  (wait (fst st) = 500 /\ calls (snd st) = sent /\
   exists id, timeout (fst st) = Some id /\
              pending (snd st) = [mkTimer id (clock (snd st) + 500) a]) ->
  500 <= fst (fst ch) ->
  wait (fst (type_in_kept st ch)) = 500 /\
  calls (snd (type_in_kept st ch)) = sent ++ [a] /\
  exists id, timeout (fst (type_in_kept st ch)) = Some id /\
             pending (snd (type_in_kept st ch)) =
             [mkTimer id (clock (snd (type_in_kept st ch)) + 500)
                (change_args ch)].
Proof.
  destruct st as [d p]. destruct ch as [[dt value] type].
  intros (Hw & Hc & id & Ht & Hp) Hdt. simpl in *.
  unfold invoke, elapse; simpl.
  rewrite Ht, Hp, Hc, Hw. simpl.
  destruct (Nat.leb_spec (clock p + 500) (clock p + dt)) as [Hle | Hgt]; [ | lia].
  simpl. repeat split. eexists. split; reflexivity.
Qed.

Lemma spaced_fold later : forall sent a st,
  (wait (fst st) = 500 /\ calls (snd st) = sent /\
   exists id, timeout (fst st) = Some id /\
              pending (snd st) = [mkTimer id (clock (snd st) + 500) a]) ->
  Forall (fun ch => 500 <= fst (fst ch)) later ->
  calls (snd (fold_left type_in_kept later st)) ++
  map args (pending (snd (fold_left type_in_kept later st)))
  = sent ++ a :: map change_args later /\
  Forall (fun t => due t <= clock (snd (fold_left type_in_kept later st)) + 500)
    (pending (snd (fold_left type_in_kept later st))).
Proof.
  induction later as [| ch later IH]; intros sent a st Hst Hgaps.
  - destruct Hst as (_ & Hc & id & _ & Hp). simpl. rewrite Hc, Hp. simpl.
    split; [reflexivity | repeat constructor].
  - inversion Hgaps as [| ? ? Hch Hlater]; subst. cbn [fold_left].
    destruct (IH (sent ++ [a]) (change_args ch) (type_in_kept st ch)
                (spaced_next sent a st ch Hst Hch) Hlater) as [E F].
    split; [ | exact F].
    rewrite E. cbn [map]. now rewrite <- app_assoc.
Qed.

(** X25: through one kept closure, changes at least 500 ms apart are
    all passed on: [searchLocation] is called once for each change, in
    order. *)
Theorem debounce_keeps_spaced_calls (first : Change) (later : list Change)
  (rest : nat) :
  Forall (fun ch => 500 <= fst (fst ch)) later -> 500 <= rest ->
  calls (session_kept (first :: later) rest)
  = map change_args (first :: later).
Proof.
  intros Hgaps Hrest. unfold session_kept. cbn [fold_left].
  destruct (spaced_fold later [] (change_args first)
              (type_in_kept (debounce 500, initialPage) first)) as [E F].
  - destruct (one_pending_first first) as (Hw & Hc & Hid). repeat split; assumption.
  - exact Hgaps.
  - set (p := snd (fold_left type_in_kept later
                     (type_in_kept (debounce 500, initialPage) first))) in *.
    unfold elapse. cbn [calls]. rewrite filter_all.
    + exact E.
    + eapply Forall_impl; [ | exact F]. intros u Hu. cbv beta in Hu.
      apply Nat.leb_le. lia.
Qed.

Lemma debounce_keeps_spaced_calls_witness :
  calls (session_kept [(0, "Lon", at_start); (700, "Paris", at_end)] 500)
  = map change_args [(0, "Lon", at_start); (700, "Paris", at_end)].
Proof.
  apply (debounce_keeps_spaced_calls (0, "Lon", at_start)
           [(700, "Paris", at_end)] 500).
  - constructor; [simpl; lia | constructor].
  - lia.
Defined.

(** X26: in the component, where every render makes a new closure,
    every change of a search field reaches [searchLocation] once the page
    has been silent for 500 ms, whatever the pace of the changes: as many
    calls as changes, in order. *)
Theorem debouncedSearch_never_supersedes (chs : list Change) (rest : nat) :
  500 <= rest ->
  calls (session chs rest) = map change_args chs /\
  List.length (calls (session chs rest)) = List.length chs.
Proof.
  intros H. rewrite (debouncedSearch_calls_every_change chs rest H).
  split; [reflexivity | apply length_map].
Qed.

Lemma debouncedSearch_never_supersedes_witness :
  calls (session [(0, "Lon", at_start); (100, "Lond", at_start);
                  (120, "Londo", at_start)] 500)
  = map change_args [(0, "Lon", at_start); (100, "Lond", at_start);
                     (120, "Londo", at_start)] /\
  List.length (calls (session [(0, "Lon", at_start); (100, "Lond", at_start);
                               (120, "Londo", at_start)] 500))
  = List.length [(0, "Lon", at_start); (100, "Lond", at_start);
                 (120, "Londo", at_start)].
Proof.
  apply (debouncedSearch_never_supersedes
           [(0, "Lon", at_start); (100, "Lond", at_start);
            (120, "Londo", at_start)] 500).
  lia.
Defined.

End DebounceMore.

(** ** What is derived for display *)

Lemma math_max_spec (xs : list R) (m : R) :
  math_max xs = Some m -> In m xs /\ forall x, In x xs -> x <= m.
Proof.
  revert m. induction xs as [| y rest IH]; intros m H; simpl in H;
    [discriminate |].
  destruct (math_max rest) as [m' |] eqn:E.
  - injection H as <-. destruct (IH m' eq_refl) as [Hin Hle]. split.
    + unfold Rmax. destruct (Rle_dec y m'); [right; exact Hin | left; reflexivity].
    + intros x [<- | Hx]; [apply Rmax_l |].
      apply Rle_trans with m'; [now apply Hle | apply Rmax_r].
  - injection H as <-. destruct rest as [| z rest'].
    + split; [left; reflexivity | intros x [<- | []]; lra].
    + simpl in E. destruct (math_max rest'); discriminate.
Qed.

Lemma math_max_nonempty (x : R) (xs : list R) :
  exists m, math_max (x :: xs) = Some m.
Proof. simpl. destruct (math_max xs); eexists; reflexivity. Qed.

Lemma maxAbsValue_spec (fi : list FeatureImportance) (f : FeatureImportance) :
  In f fi ->
  exists m, maxAbsValue fi = Some m /\
            (exists g, In g fi /\ Rabs (shap_value g) = m) /\
            forall g, In g fi -> Rabs (shap_value g) <= m.
Proof.
  intros Hf. unfold maxAbsValue.
  destruct fi as [| f0 fi']; [destruct Hf |].
  destruct (math_max_nonempty (Rabs (shap_value f0))
              (map (fun f => Rabs (shap_value f)) fi')) as [m Hm].
  exists m. split; [exact Hm |].
  destruct (math_max_spec _ _ Hm) as [Hin Hle]. split.
  - apply (in_map_iff (fun f => Rabs (shap_value f)) (f0 :: fi') m) in Hin.
    destruct Hin as (g & Hg & Hgin). now exists g.
  - intros g Hg. apply Hle.
    apply (in_map (fun f => Rabs (shap_value f)) (f0 :: fi') g Hg).
Qed.

(** X27: for a feature of the list, when some feature has a non-zero
    SHAP value, the width of its bar lies between 0 and 100 percent, is 0
    when its own SHAP value is 0, and some feature of the list has a bar of
    100 percent. *)
Theorem barWidth_bounds (f : FeatureImportance)
  (feature_importance : list FeatureImportance) :
  In f feature_importance ->
  (exists g, In g feature_importance /\ shap_value g <> 0) ->
  0 <= barWidth f feature_importance <= 100 /\
  (shap_value f = 0 -> barWidth f feature_importance = 0) /\
  exists g, In g feature_importance /\ barWidth g feature_importance = 100.
Proof.
  intros Hf (g & Hg & Hnz).
  destruct (maxAbsValue_spec feature_importance f Hf)
    as (m & Hm & (g0 & Hg0 & Eg0) & Hle).
  assert (Hpos : 0 < m).
  { apply Rlt_le_trans with (Rabs (shap_value g));
      [now apply Rabs_pos_lt | now apply Hle]. }
  unfold barWidth. rewrite Hm.
  pose proof (Rabs_pos (shap_value f)) as Hf0.
  pose proof (Hle f Hf) as Hfm.
  assert (Hq : 0 <= Rabs (shap_value f) / m <= 1).
  { split.
    - apply Rmult_le_pos; [exact Hf0 | left; now apply Rinv_0_lt_compat].
    - apply Rmult_le_reg_r with m; [exact Hpos |].
      replace (Rabs (shap_value f) / m * m) with (Rabs (shap_value f))
        by (field; lra).
      lra. }
  split; [split; lra |]. split.
  - intros ->. rewrite Rabs_R0. field. lra.
  - exists g0. split; [exact Hg0 |]. rewrite Eg0. field. lra.
Qed.

Lemma barWidth_bounds_witness :
  let fi := [mkFeatureImportance "distance_km" 3;
             mkFeatureImportance "hour" (-1);
             mkFeatureImportance "vehicle_type" 0] in
  let f := mkFeatureImportance "vehicle_type" 0 in
  0 <= barWidth f fi <= 100 /\
  (shap_value f = 0 -> barWidth f fi = 0) /\
  exists g, In g fi /\ barWidth g fi = 100.
Proof.
  apply (barWidth_bounds (mkFeatureImportance "vehicle_type" 0)
           [mkFeatureImportance "distance_km" 3;
            mkFeatureImportance "hour" (-1);
            mkFeatureImportance "vehicle_type" 0]).
  - right. right. left. reflexivity.
  - exists (mkFeatureImportance "distance_km" 3). split.
    + left. reflexivity.
    + simpl. lra.
Defined.

(** *** Short names of places *)

Lemma split_comma_cons (name : string) :
  exists piece pieces, split_comma name = piece :: pieces.
Proof.
  destruct name as [| ch rest]; simpl; [eexists; eexists; reflexivity |].
  destruct (Ascii.eqb ch ","); [eexists; eexists; reflexivity |].
  destruct (split_comma rest); eexists; eexists; reflexivity.
Qed.

Lemma join_comma_cons (piece : string) (p : string) (ps : list string) :
  join_comma (piece :: p :: ps) =
  (piece ++ String "," (join_comma (p :: ps)))%string.
Proof. reflexivity. Qed.

Lemma join_comma_push (ch : ascii) (piece : string) (pieces : list string) :
  join_comma (String ch piece :: pieces) = String ch (join_comma (piece :: pieces)).
Proof. destruct pieces; reflexivity. Qed.

Lemma join_split (name : string) : join_comma (split_comma name) = name.
Proof.
  induction name as [| ch rest IH]; [reflexivity |]. simpl.
  destruct (Ascii.eqb_spec ch ",") as [-> | Hne].
  - destruct (split_comma_cons rest) as (p & ps & E). rewrite E in *.
    rewrite join_comma_cons, IH. reflexivity.
  - destruct (split_comma_cons rest) as (p & ps & E). rewrite E in *.
    rewrite join_comma_push. now rewrite IH.
Qed.

Lemma first_piece_spec (name : string) :
  prefix (first_piece name) name = true /\ commas (first_piece name) = 0%nat.
Proof.
  unfold first_piece. induction name as [| ch rest [IHp IHc]]; [split; reflexivity |].
  simpl. destruct (Ascii.eqb_spec ch ",") as [-> | Hne]; [split; reflexivity |].
  destruct (split_comma_cons rest) as (p & ps & E). rewrite E in *. simpl in *.
  destruct (ascii_dec ch ch) as [_ | H]; [ | now elim H].
  destruct (Ascii.eqb_spec ch ",") as [-> | _]; [now elim Hne |].
  split; assumption.
Qed.

Lemma split_comma_comma (rest : string) :
  split_comma (String "," rest) = EmptyString :: split_comma rest.
Proof. reflexivity. Qed.

Lemma split_comma_other (ch : ascii) (rest piece : string)
  (pieces : list string) :
  ch <> ","%char -> split_comma rest = piece :: pieces ->
  split_comma (String ch rest) = String ch piece :: pieces.
Proof.
  intros Hne E. simpl. rewrite E.
  destruct (Ascii.eqb_spec ch ",") as [-> | _]; [now elim Hne | reflexivity].
Qed.

Lemma commas_other (ch : ascii) (rest : string) :
  ch <> ","%char -> commas (String ch rest) = commas rest.
Proof.
  intros Hne. simpl.
  destruct (Ascii.eqb_spec ch ",") as [-> | _]; [now elim Hne | reflexivity].
Qed.

Lemma prefix_push (ch : ascii) (p name : string) :
  prefix (String ch p) (String ch name) = prefix p name.
Proof. simpl. destruct (ascii_dec ch ch) as [_ | H]; [reflexivity | now elim H]. Qed.

Lemma no_comma_one_piece (name : string) :
  commas name = 0%nat -> split_comma name = [name].
Proof.
  induction name as [| ch rest IH]; [reflexivity |]. simpl.
  destruct (Ascii.eqb ch ","); [discriminate |].
  intros Hz. now rewrite (IH Hz).
Qed.

(** The second piece, if there is one, carried along with the first. *)
Lemma first_two_spec (name : string) :
  prefix (first_two_pieces name) name = true /\
  (commas (first_two_pieces name) <= 1)%nat /\
  ((commas name <= 1)%nat -> first_two_pieces name = name).
Proof.
  unfold first_two_pieces.
  induction name as [| ch rest (IHp & IHc & IHe)]; [repeat split; simpl; lia |].
  destruct (split_comma_cons rest) as (p & ps & E).
  destruct (Ascii.eqb_spec ch ",") as [-> | Hne].
  - destruct (first_piece_spec rest) as [Fp Fc]. unfold first_piece in Fp, Fc.
    rewrite split_comma_comma, E in *. simpl in Fp, Fc.
    change (join_comma (firstn 2 (EmptyString :: p :: ps))) with (String "," p).
    rewrite prefix_push. split; [exact Fp |]. split.
    + simpl. lia.
    + intros Hc. simpl in Hc. f_equal.
      assert (Hz : commas rest = 0%nat) by lia.
      rewrite (no_comma_one_piece rest Hz) in E. now injection E as <- _.
  - rewrite (split_comma_other ch rest p ps Hne E). rewrite E in *.
    assert (Hpush : join_comma (firstn 2 (String ch p :: ps)) =
                    String ch (join_comma (firstn 2 (p :: ps)))).
    { destruct ps; reflexivity. }
    rewrite Hpush, prefix_push, !(commas_other ch _ Hne).
    split; [exact IHp |]. split; [exact IHc |].
    intros Hc. f_equal. now apply IHe.
Qed.

(** X28: splitting a place name at its commas and joining the pieces
    gives the name back; the first piece is a prefix of the name without a
    comma, the first two pieces joined are a prefix with at most one
    comma, and a name with no comma (at most one comma) is shown whole. *)
Theorem place_short_names (name : string) :
  join_comma (split_comma name) = name /\
  prefix (first_piece name) name = true /\
  commas (first_piece name) = 0%nat /\
  prefix (first_two_pieces name) name = true /\
  (commas (first_two_pieces name) <= 1)%nat /\
  ((commas name = 0)%nat -> first_piece name = name) /\
  ((commas name <= 1)%nat -> first_two_pieces name = name).
Proof.
  destruct (first_piece_spec name) as [Fp Fc].
  destruct (first_two_spec name) as (Tp & Tc & Te).
  split; [apply join_split |]. repeat split; try assumption.
  intros Hz. clear - Hz. unfold first_piece.
  induction name as [| ch rest IH]; [reflexivity |]. simpl in *.
  destruct (Ascii.eqb ch ","); [discriminate |].
  destruct (split_comma_cons rest) as (p & ps & E). rewrite E in *.
  simpl in *. f_equal. now apply IH.
Qed.
